(** * UO hues.mul decoder: a shallow embedding of [uo_hues_viewer.py]

    The development embeds the two parsing functions of the viewer,
    [color16_to_rgb888] and [parse_hues], together with the pieces of the
    Python runtime they call ([file.read], [struct.unpack], [bytes.split],
    [bytes.decode("ascii", errors="ignore")], [str.strip]), and proves the
    properties of the decoder stated in the specification. *)

From Stdlib Require Import ZArith List Lia Bool Arith ZifyNat FinFun.
From Stdlib.Strings Require Import Byte Ascii String.
From Stdlib Require Import DecimalString.
Import ListNotations.

Open Scope Z_scope.

(** ** Constants of the module *)

(** [HUE_ENTRY_SIZE = struct.calcsize("<32HHH20s")]: 64 + 2 + 2 + 20. *)
Definition HUE_ENTRY_SIZE : nat := 88.
(** [HUE_GROUP_HEADER_SIZE = 4]: one DWORD per group. *)
Definition HUE_GROUP_HEADER_SIZE : nat := 4.
Definition HUES_PER_GROUP : nat := 8.

(** ** ColorCodec *)

(** Python integers are unbounded, and [>>], [&] and [//] on them are the
    arithmetic shift, the two's complement conjunction and the floor
    division: [Z.shiftr], [Z.land] and [Z.div]. *)
Definition color16_to_rgb888 (c16 : Z) : Z * Z * Z :=
  let r5 := Z.land (Z.shiftr c16 10) 0x1F in
  let g5 := Z.land (Z.shiftr c16 5) 0x1F in
  let b5 := Z.land c16 0x1F in
  let r := (r5 * 255) / 31 in
  let g := (g5 * 255) / 31 in
  let b := (b5 * 255) / 31 in
  (r, g, b).

(** ** The Python runtime pieces used by [parse_hues] *)

Module Py.

(** The value of a byte as a Python integer. *)
Definition byte_val (b : byte) : Z := Z.of_N (Byte.to_N b).

(** [f.read(n)] on a binary file: the stream is the list of bytes not yet
    consumed; the call returns at most [n] bytes and advances past them. *)
Definition read (n : nat) (f : list byte) : list byte * list byte :=
  (firstn n f, skipn n f).

(** One little-endian unsigned 16-bit field (format character [H]). *)
Definition le16 (lo hi : byte) : Z := byte_val lo + 256 * byte_val hi.

(** [n] consecutive [H] fields starting at the head of [data]; a byte past
    the end reads as zero (never reached behind the size check of
    [struct_unpack]). *)
Fixpoint unpack_H (n : nat) (data : list byte) : list Z :=
  match n with
  | O => []
  | S n' =>
      le16 (nth 0 data x00) (nth 1 data x00) :: unpack_H n' (skipn 2 data)
  end.

(** The tuple returned by [struct.unpack("<32HHH20s", data)]: 34 integers
    followed by one 20-byte string. *)
Record unpacked : Type := mkUnpacked {
  ints : list Z;
  raw20 : list byte
}.

Definition unpack_fields (data : list byte) : unpacked :=
  {| ints := unpack_H 34 data;
     raw20 := firstn 20 (skipn 68 data) |}.

(** [struct.unpack] raises [struct.error] unless the buffer has exactly
    the size of the format. *)
Definition struct_unpack (data : list byte) : option unpacked :=
  if Nat.eqb (List.length data) HUE_ENTRY_SIZE
  then Some (unpack_fields data)
  else None.

(** [rawname.split(b"\x00", 1)[0]]: the bytes before the first NUL, all of
    them when there is none. *)
Fixpoint split_nul_head (raw : list byte) : list byte :=
  match raw with
  | [] => []
  | b :: rest =>
      if Byte.eqb b x00 then [] else b :: split_nul_head rest
  end.

(** [.decode("ascii", errors="ignore")]: bytes of value 128 and above are
    not ASCII and are skipped, the others become characters. *)
Definition is_ascii (b : byte) : bool := byte_val b <? 128.

Definition decode_ascii_ignore (bs : list byte) : string :=
  string_of_list_byte (filter is_ascii bs).

(** [str.isspace] on the ASCII range: TAB, LF, VT, FF, CR, the four
    separators FS, GS, RS, US, and the space. *)
Definition isspace (c : ascii) : bool :=
  let n := Z.of_N (N_of_ascii c) in
  ((9 <=? n) && (n <=? 13)) || ((28 <=? n) && (n <=? 32)).

Fixpoint lstrip (s : string) : string :=
  match s with
  | EmptyString => EmptyString
  | String c s' => if isspace c then lstrip s' else s
  end.

Fixpoint rstrip (s : string) : string :=
  match s with
  | EmptyString => EmptyString
  | String c s' =>
      match rstrip s' with
      | EmptyString => if isspace c then EmptyString else String c EmptyString
      | r => String c r
      end
  end.

(** [str.strip()] without argument removes leading and trailing
    whitespace. *)
Definition strip (s : string) : string := rstrip (lstrip s).

End Py.

(** ** HueTableReader *)

(** The dictionary appended to [hues] for one record; its six keys are
    fixed. *)
Record HueEntry : Type := mkHueEntry {
  index : Z;
  name : string;
  start : Z;
  end_ : Z;
  colors16 : list Z;
  colorsRGB : list (Z * Z * Z)
}.

(** [rawname.split(b"\x00", 1)[0].decode("ascii", errors="ignore").strip()] *)
Definition decode_name (rawname : list byte) : string :=
  Py.strip (Py.decode_ascii_ignore (Py.split_nul_head rawname)).

(** The dictionary built from the unpacked tuple at running index [idx]
    (lines 66-81). *)
Definition hue_of_unpacked (idx : Z) (u : Py.unpacked) : HueEntry :=
  let colors16 := firstn 32 (Py.ints u) in
  let start := nth 32 (Py.ints u) 0 in
  let end_ := nth 33 (Py.ints u) 0 in
  let rawname := Py.raw20 u in
  let name := decode_name rawname in
  let colorsRGB := map color16_to_rgb888 colors16 in
  {| index := idx; name := name; start := start; end_ := end_;
     colors16 := colors16; colorsRGB := colorsRGB |}.

(** The local variables of [parse_hues] that the loops update. *)
Record locals : Type := mkLocals {
  f : list byte;       (* the bytes of the file not read yet *)
  pos : nat;
  idx : Z;
  hues : list HueEntry
}.

(** How the body of the [for] loop is left. *)
Inductive flow : Type :=
| Fell (st : locals)              (* the loop ran to its end *)
| Returned (hs : list HueEntry)   (* [return hues] *)
| Raised.                         (* an exception escaped *)

(** What a call of [parse_hues] produces. *)
Inductive outcome : Type :=
| Ok (hs : list HueEntry)
| Error                           (* [struct.error] *)
| OutOfFuel.

(** [for _ in range(n): ...] (lines 58-82). *)
Fixpoint for_entries (n : nat) (st : locals) : flow :=
  match n with
  | O => Fell st
  | S n' =>
      let (data, f') := Py.read HUE_ENTRY_SIZE (f st) in
      if Nat.eqb (List.length data) 0
         || Nat.ltb (List.length data) HUE_ENTRY_SIZE
      then Returned (hues st)
      else
        let pos' := (pos st + List.length data)%nat in
        match Py.struct_unpack data with
        | None => Raised
        | Some u =>
            for_entries n'
              {| f := f'; pos := pos'; idx := idx st + 1;
                 hues := hues st ++ [hue_of_unpacked (idx st) u] |}
        end
  end.

(** [while True: ...] (lines 51-86); each turn of the loop spends one unit
    of [fuel]. *)
Fixpoint while_groups (fuel : nat) (filesize : nat) (st : locals) : outcome :=
  match fuel with
  | O => OutOfFuel
  | S fuel' =>
      let (hdr, f') := Py.read HUE_GROUP_HEADER_SIZE (f st) in
      let pos' := (pos st + List.length hdr)%nat in
      if Nat.eqb (List.length hdr) 0
         || Nat.ltb (List.length hdr) HUE_GROUP_HEADER_SIZE
      then Ok (hues st)
      else
        match for_entries HUES_PER_GROUP
                {| f := f'; pos := pos'; idx := idx st; hues := hues st |} with
        | Returned hs => Ok hs
        | Raised => Error
        | Fell st' =>
            if Nat.leb filesize (pos st')
            then Ok (hues st')
            else while_groups fuel' filesize st'
        end
  end.

(** [parse_hues(path)], as a function of the content of the file at [path].
    Every turn of the [while] loop that does not leave it consumes a full
    group, so a fuel of one more than the number of bytes is never used up
    (see [parse_hues_total]). *)
Definition parse_hues (content : list byte) : outcome :=
  let filesize := List.length content in
  while_groups (S filesize) filesize
    {| f := content; pos := 0; idx := 1; hues := [] |}.

(** ** The layout of the file, read off the byte offsets *)

(** Size of one group: the header and eight records. *)
Definition GROUP_SIZE : nat := 708.

(** Offset of the record that becomes the entry number [k] (from 0). *)
Definition record_offset (k : nat) : nat :=
  (GROUP_SIZE * (k / 8) + 4 + 88 * (k mod 8))%nat.

Definition record_bytes (content : list byte) (k : nat) : list byte :=
  firstn HUE_ENTRY_SIZE (skipn (record_offset k) content).

(** The entry decoded from the record number [k] of [content]. *)
Definition decode_record (content : list byte) (k : nat) : HueEntry :=
  hue_of_unpacked (Z.of_nat k + 1)
    (Py.unpack_fields (record_bytes content k)).

(** Number of records that lie whole inside a file of [len] bytes and
    behind a whole group header. *)
Definition num_entries (len : nat) : nat :=
  (8 * (len / GROUP_SIZE)
   + (if len mod GROUP_SIZE <? 4 then 0
      else (len mod GROUP_SIZE - 4) / 88))%nat.

Definition decoded (content : list byte) : list HueEntry :=
  map (decode_record content) (seq 0 (num_entries (List.length content))).

(** Offsets [i] that fall inside a group header. *)
Definition in_marker (i : nat) : bool := (i mod GROUP_SIZE <? 4)%nat.

(** The locals of [parse_hues] when the stream of [content] stands at
    offset [p] and [k] entries have been appended. *)
Definition at_offset (content : list byte) (p k : nat) : locals :=
  {| f := skipn p content; pos := p; idx := Z.of_nat k + 1;
     hues := map (decode_record content) (seq 0 k) |}.

(** Two files agree on every byte outside the group headers (and have the
    same length); [i] is the offset of the heads of the two lists. *)
Fixpoint eq_outside_markers (i : nat) (b1 b2 : list byte) : bool :=
  match b1, b2 with
  | [], [] => true
  | x :: r1, y :: r2 =>
      (in_marker i || Byte.eqb x y) && eq_outside_markers (S i) r1 r2
  | _, _ => false
  end.

(** ** Sample inputs *)

Definition zeros (n : nat) : list byte := repeat x00 n.

(** A colour word from its three 5-bit fields, bit 15 clear. *)
Definition pack555 (r5 g5 b5 : Z) : Z :=
  Z.lor (Z.shiftl r5 10) (Z.lor (Z.shiftl g5 5) b5).

(** The name field [b"Red\x00...\x00"]. *)
Definition red_name : list byte :=
  list_byte_of_string "Red" ++ zeros 17.


(** A record whose 32 colour words are all [0x4104] (R=16, G=8, B=4), with
    start 1, end 2 and the name [red_name]; and a one-record file. *)
Definition crafted_record : list byte :=
  List.concat (repeat [x04; x41] 32) ++ [x01; x00; x02; x00] ++ red_name.

Definition crafted_file : list byte :=
  [xde; xad; xbe; xef] ++ crafted_record.

(** ** Observations on names *)


Definition first_char (s : string) : option ascii :=
  match s with
  | EmptyString => None
  | String c _ => Some c
  end.

Fixpoint last_char (s : string) : option ascii :=
  match s with
  | EmptyString => None
  | String c s' =>
      match last_char s' with
      | None => Some c
      | Some c' => Some c'
      end
  end.

Definition starts_with_space (s : string) : bool :=
  match first_char s with Some c => Py.isspace c | None => false end.

Definition ends_with_space (s : string) : bool :=
  match last_char s with Some c => Py.isspace c | None => false end.


Fixpoint all_space (s : string) : bool :=
  match s with
  | EmptyString => true
  | String c s' => Py.isspace c && all_space s'
  end.

Definition has_nul (s : string) : bool :=
  existsb (Ascii.eqb "000"%char) (list_ascii_of_string s).

(** ** The text and CSV views of the decoded table *)

Module PyStr.

(** [str(n)] of an integer: its decimal digits behind a minus sign when it
    is negative. *)
Definition str_int (n : Z) : string := NilZero.string_of_int (Z.to_int n).

Fixpoint fill (n : nat) (c : ascii) : string :=
  match n with
  | O => EmptyString
  | S n' => String c (fill n' c)
  end.

(** [format(n, "Wd")]: right-aligned in a field of [w] characters, padded
    with spaces; a longer number is not cut. *)
Definition format_d (w : nat) (n : Z) : string :=
  let s := str_int n in
  (fill (w - String.length s) " " ++ s)%string.

(** [format(n, "0Wd")]: padded to [w] characters with zeros, which go
    between the sign and the digits. *)
Definition format_0d (w : nat) (n : Z) : string :=
  if n <? 0
  then let d := str_int (- n) in
       ("-" ++ fill (w - 1 - String.length d) "0" ++ d)%string
  else let d := str_int n in
       (fill (w - String.length d) "0" ++ d)%string.

(** [enumerate(l)] counted from [i]. *)
Fixpoint enumerate_from {A : Type} (i : Z) (l : list A) : list (Z * A) :=
  match l with
  | [] => []
  | x :: l' => (i, x) :: enumerate_from (i + 1) l'
  end.

(** [range(0, stop, step)] for a positive step. *)
Definition range_step (stop step : nat) : list nat :=
  map (fun k => (k * step)%nat) (seq 0 ((stop + step - 1) / step)).

(** The line feed, and [sep.join(ls)]. *)
Definition nl : string := String "010"%char EmptyString.

Definition join (sep : string) (ls : list string) : string :=
  String.concat sep ls.

End PyStr.

(** One line of [format_rgb_list]:
    [f"{i:02d}: ({r:3d}, {g:3d}, {b:3d})"]. *)
Definition rgb_line (i : Z) (rgb : Z * Z * Z) : string :=
  let '(r, g, b) := rgb in
  (PyStr.format_0d 2 i ++ ": (" ++ PyStr.format_d 3 r ++ ", "
   ++ PyStr.format_d 3 g ++ ", " ++ PyStr.format_d 3 b ++ ")")%string.

(** The local [lines] of [format_rgb_list] (lines 107-109). *)
Definition rgb_lines (rgb_list : list (Z * Z * Z)) : list string :=
  map (fun p => rgb_line (fst p) (snd p)) (PyStr.enumerate_from 0 rgb_list).

(** The local [chunks]: [[lines[i:i+8] for i in range(0, len(lines), 8)]]. *)
Definition chunks_of_8 (lines : list string) : list (list string) :=
  map (fun i => firstn 8 (skipn i lines))
      (PyStr.range_step (List.length lines) 8).

(** [format_rgb_list(rgb_list)] (lines 103-112). *)
Definition format_rgb_list (rgb_list : list (Z * Z * Z)) : string :=
  let lines := rgb_lines rgb_list in
  let chunks := chunks_of_8 lines in
  PyStr.join (PyStr.nl ++ PyStr.nl)
    (map (fun row => PyStr.join PyStr.nl row) chunks).

(** A value handed to [csv.writer.writerow]: an integer or a string. *)
Inductive cell : Type :=
| CInt (n : Z)
| CStr (s : string).

(** The list [header] of [export_csv] (lines 267-269). *)
Definition csv_header : list cell :=
  map CStr ["index"; "name"; "start"; "end"]%string
  ++ flat_map
       (fun i =>
          [CStr ("c" ++ PyStr.str_int i ++ "_R");
           CStr ("c" ++ PyStr.str_int i ++ "_G");
           CStr ("c" ++ PyStr.str_int i ++ "_B")]%string)
       (map Z.of_nat (seq 0 32)).

(** The list [row] built for one hue (lines 272-274). *)
Definition csv_row (h : HueEntry) : list cell :=
  [CInt (index h); CStr (name h); CInt (start h); CInt (end_ h)]
  ++ flat_map (fun rgb => let '(r, g, b) := rgb in [CInt r; CInt g; CInt b])
       (colorsRGB h).

(** The part of the state of [HuesApp] that [open_file] and [export_csv]
    read and write: [self.hues] and the text of the status label. The
    widgets are left out. *)
Record HuesApp : Type := mkHuesApp {
  self_hues : list HueEntry;
  status : string
}.

(** [HuesApp.__init__]: no hues loaded. *)
Definition HuesApp_init : HuesApp :=
  {| self_hues := []; status := "Open a hues.mul to get started." |}.

(** The exceptions that [open_file] catches, and the message boxes. *)
Inductive exn : Type :=
| ValueError (msg : string)
| StructError
| OSError (msg : string).

Inductive dialog : Type :=
| ShowError (title : string) (prefix : string) (e : exn)
| ShowInfo (title : string) (msg : string).

(** [open_file] (lines 200-215) when the file dialog returns [path] and the
    file there holds [content]. The result is the new state and the
    message box shown, if any; [None] stands for a decode that does not
    return. *)
Definition open_file (self : HuesApp) (path : string) (content : list byte)
  : option (HuesApp * option dialog) :=
  match path with
  | EmptyString => Some (self, None)
  | _ =>
      match parse_hues content with
      | Ok [] =>
          Some (self,
                Some (ShowError "Error" "Failed to read hues.mul:"
                        (ValueError "No hues found or file unreadable.")))
      | Ok hues =>
          Some ({| self_hues := hues;
                   status := ("Loaded "
                              ++ PyStr.str_int (Z.of_nat (List.length hues))
                              ++ " hues from: " ++ path)%string |},
                None)
      | Error =>
          Some (self,
                Some (ShowError "Error" "Failed to read hues.mul:"
                        StructError))
      | OutOfFuel => None
      end
  end.

(** What can go wrong inside the [try] block of [export_csv] (lines
    263-276): nothing; [open(path, "w")] raises; or the call number [k]
    (from 0) of [writer.writerow] raises. *)
Inductive io_fault : Type :=
| NoFault
| OpenFault (e : exn)
| WriteFault (k : nat) (e : exn).

(** What [export_csv] (lines 252-278) does when the save dialog returns
    [path]: the message box shown and the rows handed to the writer, which
    in [Failed] are the rows written before the exception. *)
Inductive export_result : Type :=
| NotLoaded (d : dialog)
| Cancelled
| Saved (rows : list (list cell)) (d : dialog)
| Failed (rows : list (list cell)) (d : dialog).

Definition export_csv (self : HuesApp) (path : string) (fault : io_fault)
  : export_result :=
  match self_hues self with
  | [] => NotLoaded (ShowInfo "Export" "Load a hues.mul first.")
  | _ =>
      match path with
      | EmptyString => Cancelled
      | _ =>
          let rows := csv_header :: map csv_row (self_hues self) in
          match fault with
          | NoFault => Saved rows (ShowInfo "Export" ("Saved: " ++ path))
          | OpenFault e =>
              Failed [] (ShowError "Export error" "Could not save CSV:" e)
          | WriteFault k e =>
              if (k <? List.length rows)%nat
              then Failed (firstn k rows)
                     (ShowError "Export error" "Could not save CSV:" e)
              else Saved rows (ShowInfo "Export" ("Saved: " ++ path))
          end
      end
  end.

(** ** Predicates of the further statements *)

(** A byte that leaves no character in a name: not ASCII, or whitespace. *)
Definition vanishes (b : byte) : bool :=
  negb (Py.is_ascii b) || Py.isspace (ascii_of_byte b).

(** A byte that a name keeps as it is: ASCII and not NUL. *)
Definition plain (b : byte) : bool :=
  negb (Byte.eqb b x00) && Py.is_ascii b.

(** [s.split("\n")]: the pieces of [s] between its line feeds. *)
Fixpoint split_nl (s : string) : list string :=
  match s with
  | EmptyString => [EmptyString]
  | String c s' =>
      if Ascii.eqb c "010"
      then EmptyString :: split_nl s'
      else match split_nl s' with
           | h :: t => String c h :: t
           | [] => [String c EmptyString]
           end
  end.

(** A string without line feed. *)
Fixpoint no_nl (s : string) : bool :=
  match s with
  | EmptyString => true
  | String c s' => negb (Ascii.eqb c "010") && no_nl s'
  end.

(** The lines of the blocks with one empty line between two blocks. *)
Fixpoint blank_separated (chunks : list (list string)) : list string :=
  match chunks with
  | [] => []
  | [c] => c
  | c :: rest => c ++ [EmptyString] ++ blank_separated rest
  end.


Definition in_word16 (z : Z) : Prop := 0 <= z < 65536.

Definition in_byte (z : Z) : Prop := 0 <= z <= 255.

Definition rgb_in_bytes (rgb : Z * Z * Z) : Prop :=
  let '(r, g, b) := rgb in in_byte r /\ in_byte g /\ in_byte b.

(** * Proofs *)

Ltac Zify.zify_post_hook ::= Z.to_euclidean_division_equations.

Section LayoutArith.
Local Open Scope nat_scope.

Lemma num_entries_marker (g r : nat) :
  r < 4 -> num_entries (708 * g + r) = 8 * g.
Proof.
  intros Hr. unfold num_entries, GROUP_SIZE.
  destruct (Nat.ltb_spec ((708 * g + r) mod 708) 4); lia.
Qed.

Lemma num_entries_slot (g j r : nat) :
  j < 8 -> r < 88 -> num_entries (708 * g + 4 + 88 * j + r) = 8 * g + j.
Proof.
  intros Hj Hr. unfold num_entries, GROUP_SIZE.
  destruct (Nat.ltb_spec ((708 * g + 4 + 88 * j + r) mod 708) 4); lia.
Qed.

Lemma record_offset_slot (g j : nat) :
  j < 8 -> record_offset (8 * g + j) = 708 * g + 4 + 88 * j.
Proof. intros Hj. unfold record_offset, GROUP_SIZE. lia. Qed.

Lemma record_offset_bound (len k : nat) :
  k < num_entries len -> record_offset k + 88 <= len.
Proof.
  unfold num_entries, record_offset, GROUP_SIZE.
  destruct (Nat.ltb_spec (len mod 708) 4); lia.
Qed.

Lemma record_offset_not_marker (k j : nat) :
  j < 88 -> in_marker (record_offset k + j) = false.
Proof.
  intros Hj. unfold in_marker, record_offset, GROUP_SIZE.
  apply Nat.ltb_ge. lia.
Qed.

End LayoutArith.

(** ** The reader follows the layout *)

Section Reader.
Local Open Scope nat_scope.
Variable content : list byte.

Lemma length_read (n p : nat) :
  List.length (fst (Py.read n (skipn p content)))
  = Nat.min n (List.length content - p).
Proof. unfold Py.read; cbn [fst]. now rewrite length_firstn, length_skipn. Qed.

Lemma for_entries_short (n p k : nat) :
  List.length content < p + 88 ->
  for_entries (S n) (at_offset content p k)
  = Returned (map (decode_record content) (seq 0 k)).
Proof.
  intros Hlen. cbn [for_entries].
  pose proof (length_read HUE_ENTRY_SIZE p) as Hr.
  unfold at_offset at 1; cbn [f].
  destruct (Py.read HUE_ENTRY_SIZE (skipn p content)) as [data f'].
  cbn [fst] in Hr. unfold HUE_ENTRY_SIZE in *.
  replace (List.length data <? 88) with true
    by (symmetry; apply Nat.ltb_lt; lia).
  now rewrite orb_true_r.
Qed.

Lemma for_entries_step (n p k : nat) :
  p + 88 <= List.length content ->
  record_offset k = p ->
  for_entries (S n) (at_offset content p k)
  = for_entries n (at_offset content (p + 88) (S k)).
Proof.
  intros Hlen Hoff. cbn [for_entries].
  pose proof (length_read HUE_ENTRY_SIZE p) as Hr.
  unfold at_offset; cbn [f pos idx hues].
  unfold Py.read in *. cbn [fst] in Hr.
  unfold Py.struct_unpack. unfold HUE_ENTRY_SIZE in *.
  rewrite Hr.
  replace (Nat.min 88 (List.length content - p)) with 88 by lia.
  cbn [Nat.eqb Nat.ltb Nat.leb orb].
  do 2 f_equal.
  - rewrite skipn_skipn. f_equal. lia.
  - lia.
  - rewrite seq_S, map_app. cbn [map Nat.add]. do 2 f_equal.
    unfold decode_record, record_bytes, HUE_ENTRY_SIZE. now rewrite Hoff.
Qed.

(** The [for] loop entered at slot [j] of group [g]. *)
Lemma for_entries_layout (n j g : nat) :
  j + n = 8 ->
  708 * g + 4 + 88 * j <= List.length content ->
  for_entries n (at_offset content (708 * g + 4 + 88 * j) (8 * g + j))
  = if 708 * (g + 1) <=? List.length content
    then Fell (at_offset content (708 * (g + 1)) (8 * (g + 1)))
    else Returned (decoded content).
Proof.
  revert j. induction n as [|n IH]; intros j Hj Hlen.
  - assert (j = 8) by lia. subst j.
    replace (708 * g + 4 + 88 * 8) with (708 * (g + 1)) in * by lia.
    replace (8 * g + 8) with (8 * (g + 1)) by lia.
    apply Nat.leb_le in Hlen. rewrite Hlen. reflexivity.
  - destruct (le_lt_dec (708 * g + 4 + 88 * j + 88) (List.length content))
      as [Hfull|Hshort].
    + rewrite for_entries_step; [|exact Hfull|apply record_offset_slot; lia].
      replace (708 * g + 4 + 88 * j + 88) with (708 * g + 4 + 88 * (S j))
        in * by lia.
      replace (S (8 * g + j)) with (8 * g + S j) by lia.
      apply IH; lia.
    + rewrite for_entries_short by exact Hshort.
      replace (708 * (g + 1) <=? List.length content) with false
        by (symmetry; apply Nat.leb_gt; lia).
      unfold decoded. do 3 f_equal.
      replace (List.length content)
        with (708 * g + 4 + 88 * j
              + (List.length content - (708 * g + 4 + 88 * j))) by lia.
      symmetry. apply num_entries_slot; lia.
Qed.

Lemma while_groups_short (fuel p k : nat) :
  List.length content < p + 4 ->
  while_groups (S fuel) (List.length content) (at_offset content p k)
  = Ok (map (decode_record content) (seq 0 k)).
Proof.
  intros Hlen. cbn [while_groups].
  pose proof (length_read HUE_GROUP_HEADER_SIZE p) as Hr.
  unfold at_offset at 1; cbn [f].
  destruct (Py.read HUE_GROUP_HEADER_SIZE (skipn p content)) as [hdr f'].
  cbn [fst] in Hr. unfold HUE_GROUP_HEADER_SIZE in *.
  replace (List.length hdr <? 4) with true
    by (symmetry; apply Nat.ltb_lt; lia).
  now rewrite orb_true_r.
Qed.

Lemma while_groups_step (fuel p k : nat) :
  p + 4 <= List.length content ->
  while_groups (S fuel) (List.length content) (at_offset content p k)
  = match for_entries HUES_PER_GROUP (at_offset content (p + 4) k) with
    | Returned hs => Ok hs
    | Raised => Error
    | Fell st' =>
        if List.length content <=? pos st'
        then Ok (hues st')
        else while_groups fuel (List.length content) st'
    end.
Proof.
  intros Hlen. cbn [while_groups].
  pose proof (length_read HUE_GROUP_HEADER_SIZE p) as Hr.
  unfold at_offset at 1; cbn [f pos idx hues].
  unfold Py.read in *. cbn [fst] in Hr.
  unfold HUE_GROUP_HEADER_SIZE in *. rewrite Hr.
  replace (Nat.min 4 (List.length content - p)) with 4 by lia.
  cbn [Nat.eqb Nat.ltb Nat.leb orb].
  replace (at_offset content (p + 4) k)
    with {| f := skipn 4 (skipn p content); pos := p + 4;
            idx := (Z.of_nat k + 1)%Z;
            hues := map (decode_record content) (seq 0 k) |}.
  - reflexivity.
  - unfold at_offset. f_equal. rewrite skipn_skipn. f_equal. lia.
Qed.

(** The [while] loop entered at the header of group [g]. *)
Lemma while_groups_layout (fuel g : nat) :
  708 * g <= List.length content ->
  List.length content < 708 * (g + fuel) ->
  while_groups fuel (List.length content) (at_offset content (708 * g) (8 * g))
  = Ok (decoded content).
Proof.
  revert g. induction fuel as [|fuel IH]; intros g Hlo Hhi; [lia|].
  destruct (le_lt_dec (708 * g + 4) (List.length content)) as [Hhdr|Hcut].
  - rewrite while_groups_step by exact Hhdr.
    pose proof (for_entries_layout 8 0 g) as Hfor.
    replace (708 * g + 4 + 88 * 0) with (708 * g + 4) in Hfor by lia.
    replace (8 * g + 0) with (8 * g) in Hfor by lia.
    unfold HUES_PER_GROUP. rewrite Hfor by lia. clear Hfor.
    destruct (Nat.leb_spec (708 * (g + 1)) (List.length content))
      as [Hgrp|Hgrp]; [|reflexivity].
    cbn [at_offset pos hues].
    destruct (Nat.leb_spec (List.length content) (708 * (g + 1)))
      as [Hend|Hmore].
    + unfold decoded. do 3 f_equal.
      replace (List.length content) with (708 * (g + 1) + 0) by lia.
      symmetry. apply num_entries_marker. lia.
    + apply IH; lia.
  - rewrite while_groups_short by lia.
    unfold decoded. do 3 f_equal.
    replace (List.length content)
      with (708 * g + (List.length content - 708 * g)) by lia.
    symmetry. apply num_entries_marker. lia.
Qed.

(** The decoder never fails and returns the records of the layout. *)
Lemma parse_hues_decoded : parse_hues content = Ok (decoded content).
Proof.
  unfold parse_hues.
  change {| f := content; pos := 0; idx := 1%Z; hues := [] |}
    with (at_offset content (708 * 0) (8 * 0)).
  apply while_groups_layout; lia.
Qed.

End Reader.

(** ** ColorCodec *)

Section Codec.

(** A 5-bit field taken with shift and mask is a quotient and a
    remainder. *)
Lemma field_div_mod (w s : Z) :
  0 <= s -> Z.land (Z.shiftr w s) 0x1F = (w / 2 ^ s) mod 2 ^ 5.
Proof.
  intros Hs. change 0x1F with (Z.ones 5).
  rewrite Z.land_ones by lia. now rewrite Z.shiftr_div_pow2 by lia.
Qed.

Lemma field_range (w s : Z) : 0 <= Z.land (Z.shiftr w s) 0x1F <= 31.
Proof.
  change 0x1F with (Z.ones 5). rewrite Z.land_ones by lia.
  change (2 ^ 5) with 32. change (Z.ones 5) with 31.
  generalize (Z.shiftr w s); intros x.
  pose proof (Z.mod_pos_bound x 32). lia.
Qed.

Lemma field_testbit (w s i : Z) :
  0 <= s -> 0 <= i < 5 ->
  Z.testbit (Z.land (Z.shiftr w s) 0x1F) i = Z.testbit w (s + i).
Proof.
  intros Hs Hi. change 0x1F with (Z.ones 5).
  rewrite Z.land_spec, Z.shiftr_spec by lia.
  rewrite Z.ones_spec_low by lia. rewrite andb_true_r.
  f_equal. lia.
Qed.

(** The scaling of one field stays inside a byte. *)
Lemma scale_range (x : Z) : 0 <= x <= 31 -> 0 <= x * 255 / 31 <= 255.
Proof. intros Hx. lia. Qed.

Lemma field_flip15 (w s : Z) :
  0 <= s <= 10 ->
  Z.land (Z.shiftr (Z.lxor w 0x8000) s) 0x1F = Z.land (Z.shiftr w s) 0x1F.
Proof.
  intros Hs. apply Z.bits_inj'. intros i Hi.
  rewrite !Z.land_spec, !Z.shiftr_spec, Z.lxor_spec by lia.
  change 0x1F with (Z.ones 5).
  destruct (Z.lt_ge_cases i 5) as [Hlo|Hhi].
  - change 0x8000 with (2 ^ 15). rewrite Z.pow2_bits_eqb by lia.
    replace (15 =? i + s) with false by (symmetry; apply Z.eqb_neq; lia).
    now rewrite xorb_false_r.
  - rewrite Z.ones_spec_high by lia. now rewrite !andb_false_r.
Qed.

End Codec.

(** C1. For every 16-bit word [w], [color16_to_rgb888 w] is the triple of
    the three 5-bit fields, red in bits 10-14, green in bits 5-9, blue in
    bits 0-4, each scaled as [floor (f * 255 / 31)]; bit 15 plays no part;
    every channel lies in [0, 255]; the field value 0 gives 0 and the field
    value 31 gives 255. The function has no failing case. *)
Theorem color16_to_rgb888_fields (w : Z) (Hw : 0 <= w < 2 ^ 16) :
  let r5 := (w / 2 ^ 10) mod 2 ^ 5 in
  let g5 := (w / 2 ^ 5) mod 2 ^ 5 in
  let b5 := w mod 2 ^ 5 in
  color16_to_rgb888 w
  = (Z.land (Z.shiftr w 10) 0x1F * 255 / 31,
     Z.land (Z.shiftr w 5) 0x1F * 255 / 31,
     Z.land w 0x1F * 255 / 31)
  /\ color16_to_rgb888 w = (r5 * 255 / 31, g5 * 255 / 31, b5 * 255 / 31)
  /\ (forall i, 0 <= i < 5 ->
        Z.testbit r5 i = Z.testbit w (10 + i)
        /\ Z.testbit g5 i = Z.testbit w (5 + i)
        /\ Z.testbit b5 i = Z.testbit w i)
  /\ color16_to_rgb888 (Z.lxor w 0x8000) = color16_to_rgb888 w
  /\ (let '(r, g, b) := color16_to_rgb888 w in
      0 <= r <= 255 /\ 0 <= g <= 255 /\ 0 <= b <= 255)
  /\ (let '(r, g, b) := color16_to_rgb888 w in
      (r5 = 0 -> r = 0) /\ (r5 = 31 -> r = 255)
      /\ (g5 = 0 -> g = 0) /\ (g5 = 31 -> g = 255)
      /\ (b5 = 0 -> b = 0) /\ (b5 = 31 -> b = 255)).
Proof.
  intros r5 g5 b5.
  assert (Hr : Z.land (Z.shiftr w 10) 0x1F = r5)
    by (apply field_div_mod; lia).
  assert (Hg : Z.land (Z.shiftr w 5) 0x1F = g5)
    by (apply field_div_mod; lia).
  assert (Hb : Z.land w 0x1F = b5).
  { rewrite <- (Z.shiftr_0_r w) at 1. rewrite field_div_mod by lia.
    unfold b5. now rewrite Z.pow_0_r, Z.div_1_r. }
  assert (Hb' : forall v, Z.land v 0x1F = Z.land (Z.shiftr v 0) 0x1F)
    by (intros v; now rewrite Z.shiftr_0_r).
  repeat split.
  - unfold color16_to_rgb888. now rewrite Hr, Hg, Hb.
  - rewrite <- Hr. apply field_testbit; lia.
  - rewrite <- Hg. apply field_testbit; lia.
  - rewrite <- Hb, Hb'. rewrite field_testbit by lia. f_equal.
  - unfold color16_to_rgb888.
    rewrite (Hb' (Z.lxor w 0x8000)), (Hb' w).
    now rewrite !field_flip15 by lia.
  - apply scale_range, field_range.
  - apply scale_range, field_range.
  - apply scale_range, field_range.
  - apply scale_range, field_range.
  - apply scale_range. rewrite Hb'. apply field_range.
  - apply scale_range. rewrite Hb'. apply field_range.
  - rewrite Hr. intros ->. reflexivity.
  - rewrite Hr. intros ->. reflexivity.
  - rewrite Hg. intros ->. reflexivity.
  - rewrite Hg. intros ->. reflexivity.
  - rewrite Hb. intros ->. reflexivity.
  - rewrite Hb. intros ->. reflexivity.
Qed.

Lemma color16_to_rgb888_fields_witness :
  0 <= 0x7FE0 < 2 ^ 16
  /\ color16_to_rgb888 0x7FE0 = (255, 255, 0)
  /\ color16_to_rgb888 (Z.lxor 0x7FE0 0x8000) = color16_to_rgb888 0x7FE0.
Proof.
  assert (Hw : 0 <= 0x7FE0 < 2 ^ 16) by lia.
  pose proof (color16_to_rgb888_fields 0x7FE0 Hw) as H.
  cbv zeta in H. destruct H as (_ & H2 & _ & H4 & _).
  split; [exact Hw|]. split; [exact H2|exact H4].
Defined.

(** C2, as stated, fails: the field value 16 scales to
    [floor (16 * 255 / 31) = floor (4080 / 31) = 131], so the colour word
    with R=16, G=8, B=4 decodes to [(131, 65, 32)], which is not
    [(130, 65, 32)]. *)
Lemma color16_field16_is_not_130 :
  pack555 16 8 4 = 16644
  /\ color16_to_rgb888 (pack555 16 8 4) = (131, 65, 32)
  /\ color16_to_rgb888 (pack555 16 8 4) <> (130, 65, 32)
  /\ fst (fst (color16_to_rgb888 (pack555 16 0 0))) <> 130.
Proof.
  repeat split; try reflexivity; vm_compute; discriminate.
Qed.

(** C2, amended. The field value 16 maps to the channel value 131 (the
    floor of 131.6, neither 130 nor the rounded 132) in each of the three
    channels, the colour word with R=16, G=8, B=4 decodes to
    [(131, 65, 32)], and a file holding one record with that colour word in
    its 32 slots decodes to one entry with 32 such triples. *)
Theorem color16_field16_is_131 :
  color16_to_rgb888 (pack555 16 0 0) = (131, 0, 0)
  /\ color16_to_rgb888 (pack555 0 16 0) = (0, 131, 0)
  /\ color16_to_rgb888 (pack555 0 0 16) = (0, 0, 131)
  /\ color16_to_rgb888 (pack555 16 8 4) = (131, 65, 32)
  /\ exists e,
       parse_hues crafted_file = Ok [e]
       /\ colors16 e = repeat (pack555 16 8 4) 32
       /\ colorsRGB e = repeat (131, 65, 32) 32.
Proof.
  repeat split; try reflexivity.
  eexists. repeat split; vm_compute; reflexivity.
Qed.

(** ** Names *)

Section Names.

Lemma split_nul_head_app_nul (pre post : list byte) :
  Py.split_nul_head (pre ++ x00 :: post) = Py.split_nul_head pre.
Proof.
  induction pre as [|b pre IH]; cbn [app Py.split_nul_head].
  - reflexivity.
  - destruct (Byte.eqb b x00); [reflexivity|now rewrite IH].
Qed.

Lemma split_nul_head_no_nul (raw : list byte) :
  ~ In x00 (Py.split_nul_head raw).
Proof.
  induction raw as [|b raw IH]; cbn [Py.split_nul_head]; [easy|].
  destruct (Byte.eqb b x00) eqn:E; [easy|].
  intros [->|Hin]; [discriminate E|exact (IH Hin)].
Qed.



Lemma decode_name_app_nul (pre post : list byte) :
  decode_name (pre ++ x00 :: post) = decode_name pre.
Proof. unfold decode_name. now rewrite split_nul_head_app_nul. Qed.

Lemma decode_name_app_zeros (pre : list byte) (n : nat) :
  decode_name (pre ++ zeros n) = decode_name pre.
Proof.
  destruct n as [|n]; cbn [zeros repeat].
  - now rewrite app_nil_r.
  - apply decode_name_app_nul.
Qed.


(** *** [strip] *)

Lemma lstrip_starts (s : string) : starts_with_space (Py.lstrip s) = false.
Proof.
  induction s as [|c s IH]; cbn [Py.lstrip]; [reflexivity|].
  destruct (Py.isspace c) eqn:E; [exact IH|].
  unfold starts_with_space; cbn [first_char]. exact E.
Qed.

Lemma rstrip_first_char (s : string) (c : ascii) :
  first_char (Py.rstrip s) = Some c -> first_char s = Some c.
Proof.
  destruct s as [|a s]; cbn [Py.rstrip first_char]; [easy|].
  destruct (Py.rstrip s); [destruct (Py.isspace a)|]; cbn [first_char]; easy.
Qed.

Lemma rstrip_starts (s : string) :
  starts_with_space s = false -> starts_with_space (Py.rstrip s) = false.
Proof.
  unfold starts_with_space. intros Hs.
  destruct (first_char (Py.rstrip s)) as [c|] eqn:E; [|reflexivity].
  apply rstrip_first_char in E. now rewrite E in Hs.
Qed.

Lemma last_char_cons (a b : ascii) (s : string) :
  last_char (String a (String b s)) = last_char (String b s).
Proof. cbn [last_char]. now destruct (last_char s). Qed.

Lemma rstrip_ends (s : string) : ends_with_space (Py.rstrip s) = false.
Proof.
  induction s as [|c s IH]; cbn [Py.rstrip]; [reflexivity|].
  destruct (Py.rstrip s) as [|b r] eqn:E.
  - destruct (Py.isspace c) eqn:Ec; [reflexivity|].
    unfold ends_with_space; cbn [last_char]. exact Ec.
  - unfold ends_with_space in *. now rewrite last_char_cons.
Qed.

Lemma lstrip_decompose (s : string) :
  exists l, s = (l ++ Py.lstrip s)%string /\ all_space l = true.
Proof.
  induction s as [|c s (l & Hl & Hsp)]; cbn [Py.lstrip].
  - now exists EmptyString.
  - destruct (Py.isspace c) eqn:E.
    + exists (String c l). cbn [append all_space].
      rewrite E, Hsp. now rewrite <- Hl.
    + now exists EmptyString.
Qed.

Lemma rstrip_decompose (s : string) :
  exists r, s = (Py.rstrip s ++ r)%string /\ all_space r = true.
Proof.
  induction s as [|c s (r & Hr & Hsp)]; cbn [Py.rstrip].
  - now exists EmptyString.
  - destruct (Py.rstrip s) as [|b t] eqn:E.
    + cbn [append] in Hr. subst r.
      destruct (Py.isspace c) eqn:Ec.
      * exists (String c s). cbn [append all_space]. now rewrite Ec, Hsp.
      * exists s. now cbn [append].
    + exists r. cbn [append] in *. now rewrite <- Hr.
Qed.

Lemma strip_decompose (s : string) :
  exists l r,
    s = (l ++ Py.strip s ++ r)%string
    /\ all_space l = true /\ all_space r = true.
Proof.
  destruct (lstrip_decompose s) as (l & Hl & Hlsp).
  destruct (rstrip_decompose (Py.lstrip s)) as (r & Hr & Hrsp).
  exists l, r. unfold Py.strip. now rewrite <- Hr, <- Hl.
Qed.

(** *** No NUL survives *)

Lemma lstrip_chars (s : string) (c : ascii) :
  In c (list_ascii_of_string (Py.lstrip s)) ->
  In c (list_ascii_of_string s).
Proof.
  induction s as [|a s IH]; cbn [Py.lstrip]; [easy|].
  destruct (Py.isspace a); [|easy].
  intros H. right. exact (IH H).
Qed.

Lemma rstrip_chars (s : string) (c : ascii) :
  In c (list_ascii_of_string (Py.rstrip s)) ->
  In c (list_ascii_of_string s).
Proof.
  induction s as [|a s IH]; cbn [Py.rstrip]; [easy|].
  destruct (Py.rstrip s) as [|b t].
  - destruct (Py.isspace a); [easy|].
    cbn [list_ascii_of_string In]. tauto.
  - cbn [list_ascii_of_string In] in *. tauto.
Qed.

Lemma decode_name_chars (raw : list byte) (c : ascii) :
  In c (list_ascii_of_string (decode_name raw)) ->
  exists b, c = ascii_of_byte b /\ Py.is_ascii b = true /\ b <> x00.
Proof.
  intros H. unfold decode_name, Py.strip in H.
  apply rstrip_chars, lstrip_chars in H.
  unfold Py.decode_ascii_ignore, string_of_list_byte in H.
  rewrite list_ascii_of_string_of_list_ascii in H.
  apply in_map_iff in H as (b & Hb & Hin).
  apply filter_In in Hin as (Hin & Hasc).
  exists b. repeat split; [easy|exact Hasc|].
  intros ->. exact (split_nul_head_no_nul raw Hin).
Qed.

Lemma decode_name_no_nul (raw : list byte) : has_nul (decode_name raw) = false.
Proof.
  unfold has_nul.
  destruct (existsb _ _) eqn:E; [|reflexivity].
  apply existsb_exists in E as (c & Hin & Hc).
  apply Ascii.eqb_eq in Hc. subst c.
  apply decode_name_chars in Hin as (b & Hb & _ & Hnz).
  apply (f_equal byte_of_ascii) in Hb.
  rewrite byte_of_ascii_of_byte in Hb. now subst b.
Qed.

End Names.


(** C10. The decoded name never holds a NUL; the field is cut at its first
    NUL, so whatever follows it, printable or not, is discarded; and the
    surviving prefix, once decoded, loses its leading and its trailing
    whitespace and nothing else: the name neither starts nor ends with a
    whitespace character, and the prefix is the name between two runs of
    whitespace. The ASCII whitespace characters (space, TAB, LF, VT, FF,
    CR) all count as whitespace. *)
Theorem decode_name_cut_at_nul :
  (forall raw, has_nul (decode_name raw) = false)
  /\ (forall pre post, decode_name (pre ++ x00 :: post) = decode_name pre)
  /\ (forall raw,
        starts_with_space (decode_name raw) = false
        /\ ends_with_space (decode_name raw) = false)
  /\ (forall raw, exists l r,
        Py.decode_ascii_ignore (Py.split_nul_head raw)
        = (l ++ decode_name raw ++ r)%string
        /\ all_space l = true /\ all_space r = true)
  /\ forallb Py.isspace
       [" "; "009"; "010"; "011"; "012"; "013"]%char = true
  /\ decode_name (list_byte_of_string " Red " ++ x00
                  :: list_byte_of_string "Blue" ++ zeros 10)
     = "Red"%string.
Proof.
  split; [exact decode_name_no_nul|].
  split; [exact decode_name_app_nul|].
  split.
  { intros raw. unfold decode_name, Py.strip. split.
    - apply rstrip_starts, lstrip_starts.
    - apply rstrip_ends. }
  split; [intros raw; apply strip_decompose|].
  split; reflexivity.
Qed.

(** ** The decoded sequence *)

Section Decoded.
Local Open Scope nat_scope.

Lemma decoded_length (content : list byte) :
  List.length (decoded content) = num_entries (List.length content).
Proof. unfold decoded. now rewrite length_map, length_seq. Qed.

Lemma decoded_nth (content : list byte) (k : nat) (e : HueEntry) :
  nth_error (decoded content) k = Some e ->
  k < num_entries (List.length content) /\ e = decode_record content k.
Proof.
  intros H.
  assert (Hk : k < num_entries (List.length content)).
  { rewrite <- decoded_length. apply nth_error_Some. congruence. }
  split; [exact Hk|].
  unfold decoded in H. rewrite nth_error_map, nth_error_seq in H.
  apply Nat.ltb_lt in Hk. rewrite Hk in H. cbn in H. congruence.
Qed.

(** A record that lies whole inside a prefix of the file is read from
    the prefix. *)
Lemma record_bytes_app (whole cut : list byte) (k : nat) :
  record_offset k + 88 <= List.length whole ->
  record_bytes (whole ++ cut) k = record_bytes whole k.
Proof.
  intros Hk. unfold record_bytes, HUE_ENTRY_SIZE.
  rewrite skipn_app, firstn_app, length_skipn.
  replace (88 - (List.length whole - record_offset k)) with 0 by lia.
  cbn [firstn]. now rewrite app_nil_r.
Qed.

(** Bytes appended to a file that do not complete a record leave the
    decoded sequence as it is. *)
Lemma decoded_app (whole cut : list byte) :
  num_entries (List.length whole + List.length cut)
  = num_entries (List.length whole) ->
  decoded (whole ++ cut) = decoded whole.
Proof.
  intros Hn. unfold decoded. rewrite length_app, Hn.
  apply map_ext_in. intros k Hk. apply in_seq in Hk.
  unfold decode_record. rewrite record_bytes_app; [reflexivity|].
  apply record_offset_bound. lia.
Qed.

Lemma record_bytes_nth (content : list byte) (k j : nat) :
  j < 88 ->
  nth j (record_bytes content k) x00
  = nth (record_offset k + j) content x00.
Proof.
  intros Hj. unfold record_bytes, HUE_ENTRY_SIZE.
  rewrite nth_firstn. apply Nat.ltb_lt in Hj. rewrite Hj.
  apply nth_skipn.
Qed.

Lemma unpack_H_length (n : nat) (data : list byte) :
  List.length (Py.unpack_H n data) = n.
Proof.
  revert data. induction n as [|n IH]; intros data; cbn [Py.unpack_H].
  - reflexivity.
  - cbn [List.length]. now rewrite IH.
Qed.

Lemma unpack_H_nth (n i : nat) (data : list byte) :
  i < n ->
  nth i (Py.unpack_H n data) 0%Z
  = Py.le16 (nth (2 * i) data x00) (nth (2 * i + 1) data x00).
Proof.
  revert i data. induction n as [|n IH]; intros i data Hi; [lia|].
  cbn [Py.unpack_H]. destruct i as [|i].
  - reflexivity.
  - cbn [nth]. rewrite IH by lia. rewrite !nth_skipn.
    f_equal; f_equal; lia.
Qed.

(** Agreement outside the group headers, read off the boolean test. *)
Lemma eq_outside_markers_sound (i : nat) (b1 b2 : list byte) :
  eq_outside_markers i b1 b2 = true ->
  List.length b1 = List.length b2
  /\ forall j, in_marker (i + j) = false ->
               nth_error b1 j = nth_error b2 j.
Proof.
  revert i b2. induction b1 as [|x b1 IH]; intros i [|y b2] H;
    cbn [eq_outside_markers] in H; try discriminate.
  - split; [reflexivity|]. intros j _. reflexivity.
  - apply andb_true_iff in H as (Hhead & Htail).
    destruct (IH _ _ Htail) as (Hlen & Hnth).
    split; [cbn [List.length]; now rewrite Hlen|].
    intros [|j] Hj; cbn [nth_error].
    + rewrite Nat.add_0_r in Hj. rewrite Hj in Hhead. cbn [orb] in Hhead.
      apply Byte.byte_dec_bl in Hhead. now subst y.
    + apply Hnth. now replace (S i + j) with (i + S j) by lia.
Qed.

Lemma record_bytes_outside_markers (b1 b2 : list byte) (k : nat) :
  (forall i, in_marker i = false -> nth_error b1 i = nth_error b2 i) ->
  record_bytes b1 k = record_bytes b2 k.
Proof.
  intros Hagree. unfold record_bytes, HUE_ENTRY_SIZE.
  apply nth_error_ext. intros j.
  rewrite !nth_error_firstn. destruct (Nat.ltb_spec j 88); [|reflexivity].
  rewrite !nth_error_skipn. apply Hagree.
  now apply record_offset_not_marker.
Qed.

(** The short reads, on any state of the locals. *)
Lemma while_groups_truncated (fuel size : nat) (st : locals) :
  List.length (f st) < 4 ->
  while_groups (S fuel) size st = Ok (hues st).
Proof.
  intros Hlen. cbn [while_groups]. unfold Py.read, HUE_GROUP_HEADER_SIZE.
  rewrite firstn_all2 by lia.
  replace (List.length (f st) <? 4) with true
    by (symmetry; apply Nat.ltb_lt; lia).
  now rewrite orb_true_r.
Qed.

Lemma for_entries_truncated (n : nat) (st : locals) :
  List.length (f st) < 88 ->
  for_entries (S n) st = Returned (hues st).
Proof.
  intros Hlen. cbn [for_entries]. unfold Py.read, HUE_ENTRY_SIZE.
  rewrite firstn_all2 by lia.
  replace (List.length (f st) <? 88) with true
    by (symmetry; apply Nat.ltb_lt; lia).
  now rewrite orb_true_r.
Qed.

End Decoded.

(** ** The claims on the reader *)

(** C3. Truncation is absorbed at every structural point and never
    raised. A read of the group header that gets fewer than 4 bytes ends
    the [while] loop with the entries appended so far; a read of a record
    that gets fewer than 88 bytes leaves the [for] loop by [return] with
    the entries appended so far. So a file cut inside a group header, or
    inside a record, decodes without error to exactly the entries of the
    part before the cut; a file of 708 + 50 bytes decodes to the 8 entries
    of its first group. *)
Theorem truncation_absorbed :
  (forall fuel size st,
      (List.length (f st) < 4)%nat ->
      while_groups (S fuel) size st = Ok (hues st))
  /\ (forall n st,
        (List.length (f st) < 88)%nat ->
        for_entries (S n) st = Returned (hues st))
  /\ (forall whole cut g,
        List.length whole = (708 * g)%nat ->
        (List.length cut < 4)%nat ->
        parse_hues (whole ++ cut) = Ok (decoded whole)
        /\ parse_hues whole = Ok (decoded whole)
        /\ List.length (decoded whole) = (8 * g)%nat)
  /\ (forall whole cut g j,
        (j < 8)%nat ->
        List.length whole = (708 * g + 4 + 88 * j)%nat ->
        (List.length cut < 88)%nat ->
        parse_hues (whole ++ cut) = Ok (decoded whole)
        /\ parse_hues whole = Ok (decoded whole)
        /\ List.length (decoded whole) = (8 * g + j)%nat)
  /\ (forall content,
        List.length content = (708 + 50)%nat ->
        parse_hues content = Ok (decoded (firstn 708 content))
        /\ List.length (decoded (firstn 708 content)) = 8%nat)
  /\ (forall content, exists hs, parse_hues content = Ok hs).
Proof.
  split; [exact while_groups_truncated|].
  split; [exact for_entries_truncated|].
  split.
  { intros whole cut g Hw Hc.
    assert (Hn : num_entries (List.length whole) = (8 * g)%nat).
    { rewrite Hw. replace (708 * g)%nat with (708 * g + 0)%nat by lia.
      apply num_entries_marker. lia. }
    rewrite !parse_hues_decoded, decoded_length.
    repeat split; [|exact Hn]. f_equal. apply decoded_app.
    rewrite Hn, Hw. apply num_entries_marker. exact Hc. }
  split.
  { intros whole cut g j Hj Hw Hc.
    assert (Hn : num_entries (List.length whole) = (8 * g + j)%nat).
    { rewrite Hw.
      replace (708 * g + 4 + 88 * j)%nat
        with (708 * g + 4 + 88 * j + 0)%nat by lia.
      apply num_entries_slot; lia. }
    rewrite !parse_hues_decoded, decoded_length.
    repeat split; [|exact Hn]. f_equal. apply decoded_app.
    rewrite Hn, Hw. apply num_entries_slot; lia. }
  split.
  { intros content Hlen.
    assert (Hpre : List.length (firstn 708 content) = 708%nat)
      by (rewrite length_firstn; lia).
    assert (Hsuf : List.length (skipn 708 content) = 50%nat)
      by (rewrite length_skipn; lia).
    rewrite parse_hues_decoded, decoded_length, Hpre.
    split; [|reflexivity]. f_equal.
    rewrite <- (firstn_skipn 708 content) at 1.
    apply decoded_app. rewrite Hpre, Hsuf. reflexivity. }
  intros content. exists (decoded content). apply parse_hues_decoded.
Qed.

Lemma truncation_absorbed_witness :
  List.length (repeat xff 758) = (708 + 50)%nat
  /\ parse_hues (repeat xff 758) = Ok (decoded (firstn 708 (repeat xff 758)))
  /\ List.length (decoded (firstn 708 (repeat xff 758))) = 8%nat.
Proof.
  assert (Hlen : List.length (repeat xff 758) = (708 + 50)%nat)
    by (vm_compute; reflexivity).
  split; [exact Hlen|].
  destruct truncation_absorbed as (_ & _ & _ & _ & H & _).
  exact (H (repeat xff 758) Hlen).
Defined.

(** C4. A file whose length is a multiple of 708 decodes to exactly
    [8 * (length / 708)] entries, whatever its bytes are. *)
Theorem whole_groups_count (content : list byte)
  (Hlen : (List.length content mod 708 = 0)%nat) :
  exists hs,
    parse_hues content = Ok hs
    /\ List.length hs = (8 * (List.length content / 708))%nat.
Proof.
  exists (decoded content). split; [apply parse_hues_decoded|].
  rewrite decoded_length. unfold num_entries, GROUP_SIZE.
  rewrite Hlen. cbn [Nat.ltb Nat.leb]. lia.
Qed.

Lemma whole_groups_count_witness :
  exists hs,
    parse_hues (repeat x5a 1416) = Ok hs
    /\ List.length hs = (8 * (List.length (repeat x5a 1416) / 708))%nat.
Proof.
  apply (whole_groups_count (repeat x5a 1416)).
  vm_compute. reflexivity.
Defined.

(** C5. Every entry of the output is complete. The entry at place [k]
    (from 0) comes from a record that lies whole inside the file, at offset
    [record_offset k]: its [start] and [end] are the two 16-bit words at
    bytes 64 and 66 of the record, unchanged; [colors16] holds the 32 words
    at the head of the record in their order; [colorsRGB] has the same
    length 32 and its slot [i] is [color16_to_rgb888] of slot [i] of
    [colors16]; the name is the decoding of the last 20 bytes. *)
Theorem entries_complete (content : list byte) (hs : list HueEntry)
  (k : nat) (e : HueEntry)
  (Hparse : parse_hues content = Ok hs)
  (Hk : nth_error hs k = Some e) :
  let off := record_offset k in
  (off + 88 <= List.length content)%nat
  /\ index e = Z.of_nat k + 1
  /\ name e = decode_name (firstn 20 (skipn (off + 68) content))
  /\ start e
     = Py.le16 (nth (off + 64) content x00) (nth (off + 65) content x00)
  /\ end_ e
     = Py.le16 (nth (off + 66) content x00) (nth (off + 67) content x00)
  /\ List.length (colors16 e) = 32%nat
  /\ List.length (colorsRGB e) = 32%nat
  /\ (forall i, (i < 32)%nat ->
        nth i (colors16 e) 0
        = Py.le16 (nth (off + 2 * i) content x00)
                  (nth (off + 2 * i + 1) content x00))
  /\ (forall i, (i < 32)%nat ->
        nth i (colorsRGB e) (0, 0, 0)
        = color16_to_rgb888 (nth i (colors16 e) 0))
  /\ colorsRGB e = map color16_to_rgb888 (colors16 e).
Proof.
  intros off. rewrite parse_hues_decoded in Hparse.
  injection Hparse as <-. apply decoded_nth in Hk as (Hlt & ->).
  pose proof (record_offset_bound _ _ Hlt) as Hoff. fold off in Hoff.
  assert (Hc16 : List.length (colors16 (decode_record content k)) = 32%nat).
  { cbn [decode_record hue_of_unpacked colors16 Py.unpack_fields Py.ints].
    rewrite length_firstn, unpack_H_length. reflexivity. }
  split; [exact Hoff|]. split; [reflexivity|]. split.
  { cbn [decode_record hue_of_unpacked name Py.unpack_fields Py.raw20].
    f_equal. unfold record_bytes, HUE_ENTRY_SIZE. fold off.
    rewrite skipn_firstn_comm, firstn_firstn, skipn_skipn.
    replace (68 + off)%nat with (off + 68)%nat by lia. reflexivity. }
  split.
  { cbn [decode_record hue_of_unpacked start Py.unpack_fields Py.ints].
    rewrite (unpack_H_nth 34 32) by lia.
    rewrite !record_bytes_nth by lia. reflexivity. }
  split.
  { cbn [decode_record hue_of_unpacked end_ Py.unpack_fields Py.ints].
    rewrite (unpack_H_nth 34 33) by lia.
    rewrite !record_bytes_nth by lia. reflexivity. }
  split; [exact Hc16|]. split.
  { cbn [decode_record hue_of_unpacked colorsRGB].
    rewrite length_map. exact Hc16. }
  split.
  { intros i Hi.
    cbn [decode_record hue_of_unpacked colors16 Py.unpack_fields Py.ints].
    rewrite nth_firstn. replace (i <? 32)%nat with true
      by (symmetry; apply Nat.ltb_lt; exact Hi).
    rewrite unpack_H_nth by lia.
    rewrite !record_bytes_nth by lia. fold off.
    now rewrite Nat.add_assoc. }
  split; [|reflexivity].
  intros i Hi. cbn [decode_record hue_of_unpacked colorsRGB colors16].
  change (0, 0, 0) with (color16_to_rgb888 0). apply map_nth.
Qed.

Lemma entries_complete_witness :
  exists e,
    nth_error (decoded crafted_file) 0 = Some e
    /\ start e = 1 /\ end_ e = 2
    /\ List.length (colors16 e) = 32%nat
    /\ colorsRGB e = map color16_to_rgb888 (colors16 e).
Proof.
  exists (decode_record crafted_file 0).
  assert (Hparse : parse_hues crafted_file = Ok (decoded crafted_file))
    by (vm_compute; reflexivity).
  assert (Hk : nth_error (decoded crafted_file) 0
               = Some (decode_record crafted_file 0))
    by (vm_compute; reflexivity).
  pose proof (entries_complete crafted_file _ 0 _ Hparse Hk) as H.
  cbv zeta in H.
  destruct H as (_ & _ & _ & Hs & He & Hl & _ & _ & _ & Hrgb).
  split; [exact Hk|].
  split; [rewrite Hs; vm_compute; reflexivity|].
  split; [rewrite He; vm_compute; reflexivity|].
  split; [exact Hl|exact Hrgb].
Defined.

(** C6. The empty file decodes to the empty sequence, and on every file
    the decoder returns a sequence: it neither raises nor runs on. *)
Theorem empty_source_and_totality :
  parse_hues [] = Ok []
  /\ (forall content, exists hs, parse_hues content = Ok hs)
  /\ (forall content, parse_hues content <> Error)
  /\ (forall content, parse_hues content <> OutOfFuel).
Proof.
  split; [reflexivity|].
  split; [intros content; exists (decoded content); apply parse_hues_decoded|].
  split; intros content; rewrite parse_hues_decoded; discriminate.
Qed.

(** C7. The entry at place [k] of the output, counted from 1, has index
    [k]: the indices are 1, 2, 3, ... whatever the file, across group
    boundaries, and no index occurs twice. *)
Theorem index_sequential (content : list byte) :
  exists hs,
    parse_hues content = Ok hs
    /\ map index hs = map Z.of_nat (seq 1 (List.length hs))
    /\ NoDup (map index hs).
Proof.
  exists (decoded content). split; [apply parse_hues_decoded|].
  assert (Hidx : map index (decoded content)
                 = map Z.of_nat (seq 1 (List.length (decoded content)))).
  { rewrite decoded_length. unfold decoded.
    rewrite <- seq_shift, !map_map. apply map_ext.
    intros k. cbn [decode_record hue_of_unpacked index]. lia. }
  split; [exact Hidx|].
  rewrite Hidx. apply Injective_map_NoDup.
  - intros a b. apply Nat2Z.inj.
  - apply seq_NoDup.
Qed.

(** C9. The group headers are never interpreted: two files of the same
    length that agree on every byte outside the header positions (offsets
    [i] with [i mod 708 < 4]) decode to the same result. *)
Theorem markers_not_interpreted (b1 b2 : list byte)
  (Hlen : List.length b1 = List.length b2)
  (Hagree : forall i, in_marker i = false ->
                      nth_error b1 i = nth_error b2 i) :
  parse_hues b1 = parse_hues b2.
Proof.
  rewrite !parse_hues_decoded. f_equal. unfold decoded.
  rewrite Hlen. apply map_ext. intros k. unfold decode_record.
  now rewrite (record_bytes_outside_markers b1 b2 k Hagree).
Qed.

Lemma markers_not_interpreted_witness :
  parse_hues ([xde; xad; xbe; xef] ++ crafted_record
              ++ zeros 616 ++ [x01; x02; x03; x04] ++ crafted_record)
  = parse_hues (zeros 4 ++ crafted_record
                ++ zeros 616 ++ [xff; xff; xff; xff] ++ crafted_record).
Proof.
  assert (H : eq_outside_markers 0
                ([xde; xad; xbe; xef] ++ crafted_record
                 ++ zeros 616 ++ [x01; x02; x03; x04] ++ crafted_record)
                (zeros 4 ++ crafted_record
                 ++ zeros 616 ++ [xff; xff; xff; xff] ++ crafted_record)
              = true) by (vm_compute; reflexivity).
  apply eq_outside_markers_sound in H as (Hlen & Hagree).
  apply (markers_not_interpreted _ _ Hlen). exact Hagree.
Defined.


(** * Further properties of the code *)

(** ** ColorCodec: nothing of the 15 bits is lost *)

Section CodecLossless.

Lemma scale_injective (x y : Z) :
  0 <= x <= 31 -> 0 <= y <= 31 -> x * 255 / 31 = y * 255 / 31 -> x = y.
Proof. intros Hx Hy H. lia. Qed.

Lemma low15_of_fields (w : Z) :
  w mod 2 ^ 15
  = 1024 * Z.land (Z.shiftr w 10) 0x1F + 32 * Z.land (Z.shiftr w 5) 0x1F
    + Z.land w 0x1F.
Proof.
  rewrite <- (Z.shiftr_0_r w) at 4.
  rewrite !field_div_mod by lia.
  change (2 ^ 15) with 32768. change (2 ^ 10) with 1024.
  change (2 ^ 5) with 32. change (2 ^ 0) with 1. lia.
Qed.

End CodecLossless.

(** X1. Two colour words decode to the same RGB triple exactly when they
    agree on their low 15 bits: the scaling of a 5-bit field is one-to-one,
    so the decoded triple determines the three fields. *)
Theorem color16_to_rgb888_lossless (w1 w2 : Z) :
  color16_to_rgb888 w1 = color16_to_rgb888 w2
  <-> w1 mod 2 ^ 15 = w2 mod 2 ^ 15.
Proof.
  rewrite !low15_of_fields. unfold color16_to_rgb888.
  pose proof (field_range w1 10) as R1. pose proof (field_range w2 10) as R2.
  pose proof (field_range w1 5) as G1. pose proof (field_range w2 5) as G2.
  pose proof (field_range w1 0) as B1. pose proof (field_range w2 0) as B2.
  rewrite Z.shiftr_0_r in B1, B2.
  split.
  - intros H. injection H as Hr Hg Hb.
    apply scale_injective in Hr; [|assumption..].
    apply scale_injective in Hg; [|assumption..].
    apply scale_injective in Hb; [|assumption..].
    now rewrite Hr, Hg, Hb.
  - intros H.
    assert (Z.land (Z.shiftr w1 10) 0x1F = Z.land (Z.shiftr w2 10) 0x1F
            /\ Z.land (Z.shiftr w1 5) 0x1F = Z.land (Z.shiftr w2 5) 0x1F
            /\ Z.land w1 0x1F = Z.land w2 0x1F) as (-> & -> & ->) by lia.
    reflexivity.
Qed.

(** ** HueTableReader: ranges, count, prefixes, independent records *)

Section ReaderFacts.
Local Open Scope nat_scope.

Lemma byte_val_range (b : byte) : (0 <= Py.byte_val b <= 255)%Z.
Proof.
  unfold Py.byte_val. pose proof (Byte.to_N_bounded b). lia.
Qed.

Lemma le16_range (lo hi : byte) : in_word16 (Py.le16 lo hi).
Proof.
  unfold in_word16, Py.le16.
  pose proof (byte_val_range lo). pose proof (byte_val_range hi). lia.
Qed.

Lemma unpack_H_range (n : nat) (data : list byte) :
  Forall in_word16 (Py.unpack_H n data).
Proof.
  revert data. induction n as [|n IH]; intros data; cbn [Py.unpack_H].
  - constructor.
  - constructor; [apply le16_range|apply IH].
Qed.

Lemma color16_to_rgb888_in_bytes (w : Z) : rgb_in_bytes (color16_to_rgb888 w).
Proof.
  unfold rgb_in_bytes, color16_to_rgb888, in_byte.
  pose proof (field_range w 0) as Hb. rewrite Z.shiftr_0_r in Hb.
  repeat split; apply scale_range; try apply field_range; exact Hb.
Qed.

Lemma in_decoded (content : list byte) (e : HueEntry) :
  In e (decoded content) ->
  exists k, k < num_entries (List.length content)
            /\ e = decode_record content k.
Proof.
  intros H. apply In_nth_error in H as (k & Hk).
  exists k. now apply decoded_nth.
Qed.

Lemma num_entries_mono (a b : nat) :
  num_entries a <= num_entries (a + b).
Proof.
  unfold num_entries, GROUP_SIZE.
  destruct (Nat.ltb_spec (a mod 708) 4);
    destruct (Nat.ltb_spec ((a + b) mod 708) 4); lia.
Qed.

Lemma num_entries_room (len : nat) :
  88 * num_entries len + 4 * ((num_entries len + 7) / 8) <= len
  /\ len < 88 * (num_entries len + 1) + 4 * ((num_entries len + 8) / 8).
Proof.
  unfold num_entries, GROUP_SIZE.
  destruct (Nat.ltb_spec (len mod 708) 4); lia.
Qed.

Lemma record_offsets_apart (j k : nat) :
  j <> k ->
  record_offset j + 88 <= record_offset k
  \/ record_offset k + 88 <= record_offset j.
Proof. unfold record_offset, GROUP_SIZE. lia. Qed.

Lemma record_bytes_agree (b1 b2 : list byte) (j : nat) :
  (forall i, record_offset j <= i < record_offset j + 88 ->
             nth_error b1 i = nth_error b2 i) ->
  record_bytes b1 j = record_bytes b2 j.
Proof.
  intros Hagree. unfold record_bytes, HUE_ENTRY_SIZE.
  apply nth_error_ext. intros i.
  rewrite !nth_error_firstn. destruct (Nat.ltb_spec i 88); [|reflexivity].
  rewrite !nth_error_skipn. apply Hagree. lia.
Qed.

End ReaderFacts.

Section ReaderFacts2.
Local Open Scope nat_scope.

Lemma Forall_firstn_of {A : Type} (P : A -> Prop) (n : nat) (l : list A) :
  Forall P l -> Forall P (firstn n l).
Proof.
  intros H. revert n. induction H as [|x l Hx Hl IH]; intros [|n];
    cbn [firstn]; constructor; auto.
Qed.

Lemma record_bytes_at (pre rec post : list byte) (k : nat) :
  List.length pre = record_offset k ->
  List.length rec = 88 ->
  record_bytes (pre ++ rec ++ post) k = rec.
Proof.
  intros Hpre Hrec. unfold record_bytes, HUE_ENTRY_SIZE.
  rewrite <- Hpre, skipn_app, skipn_all, Nat.sub_diag. cbn [skipn app].
  rewrite <- Hrec, <- (Nat.add_0_r (List.length rec)), firstn_app_2.
  cbn [firstn]. apply app_nil_r.
Qed.

Lemma nth_error_around (pre rec1 rec2 post : list byte) (i : nat) :
  List.length rec1 = List.length rec2 ->
  i < List.length pre \/ List.length pre + List.length rec1 <= i ->
  nth_error (pre ++ rec1 ++ post) i = nth_error (pre ++ rec2 ++ post) i.
Proof.
  intros Hrec [Hlo|Hhi].
  - now rewrite !nth_error_app1 by exact Hlo.
  - rewrite !nth_error_app2 by lia. rewrite Hrec. reflexivity.
Qed.

Lemma num_entries_reaches (len k : nat) :
  record_offset k + 88 <= len -> k < num_entries len.
Proof.
  unfold num_entries, record_offset, GROUP_SIZE.
  destruct (Nat.ltb_spec (len mod 708) 4); lia.
Qed.

End ReaderFacts2.

(** X2. In every entry that [parse_hues] returns, the 32 colour words and
    the start and end values are 16-bit unsigned values, and the three
    channels of every RGB triple lie in [0, 255]. *)
Theorem entries_in_range (content : list byte) (hs : list HueEntry)
  (e : HueEntry)
  (Hparse : parse_hues content = Ok hs) (Hin : In e hs) :
  Forall in_word16 (colors16 e)
  /\ in_word16 (start e) /\ in_word16 (end_ e)
  /\ Forall rgb_in_bytes (colorsRGB e).
Proof.
  rewrite parse_hues_decoded in Hparse. injection Hparse as <-.
  apply in_decoded in Hin as (k & _ & ->).
  cbn [decode_record hue_of_unpacked colors16 start end_ colorsRGB
       Py.unpack_fields Py.ints].
  pose proof (unpack_H_range 34 (record_bytes content k)) as Hall.
  split; [now apply Forall_firstn_of|].
  split; [apply Forall_nth; [exact Hall|rewrite unpack_H_length; lia]|].
  split; [apply Forall_nth; [exact Hall|rewrite unpack_H_length; lia]|].
  apply Forall_map, Forall_forall. intros w _.
  apply color16_to_rgb888_in_bytes.
Qed.

Lemma entries_in_range_witness :
  Forall in_word16 (colors16 (decode_record crafted_file 0))
  /\ in_word16 (start (decode_record crafted_file 0))
  /\ in_word16 (end_ (decode_record crafted_file 0))
  /\ Forall rgb_in_bytes (colorsRGB (decode_record crafted_file 0)).
Proof.
  apply (entries_in_range crafted_file [decode_record crafted_file 0]).
  - vm_compute. reflexivity.
  - left. reflexivity.
Defined.

(** X3. Bytes appended to a file never change the entries already
    decoded: the result for the longer file starts with the result for the
    shorter one. *)
Theorem appended_bytes_extend_result (whole more : list byte)
  (hs : list HueEntry) (Hparse : parse_hues whole = Ok hs) :
  exists hs', parse_hues (whole ++ more) = Ok (hs ++ hs').
Proof.
  rewrite parse_hues_decoded in Hparse. injection Hparse as <-.
  rewrite parse_hues_decoded.
  pose proof (num_entries_mono (List.length whole) (List.length more)) as Hm.
  set (n1 := num_entries (List.length whole)) in *.
  set (n2 := num_entries (List.length whole + List.length more)) in *.
  exists (map (decode_record (whole ++ more)) (seq n1 (n2 - n1))).
  f_equal. unfold decoded. rewrite length_app. fold n1 n2.
  replace n2 with (n1 + (n2 - n1))%nat at 1 by lia.
  rewrite seq_app, map_app. cbn [Nat.add]. f_equal.
  apply map_ext_in. intros k Hk. apply in_seq in Hk.
  unfold decode_record. rewrite record_bytes_app; [reflexivity|].
  apply record_offset_bound. unfold n1 in Hk. lia.
Qed.

Lemma appended_bytes_extend_result_witness :
  exists hs',
    parse_hues (crafted_file ++ crafted_record)
    = Ok ([decode_record crafted_file 0] ++ hs').
Proof.
  apply (appended_bytes_extend_result crafted_file crafted_record).
  vm_compute. reflexivity.
Defined.

(** X4. Records are decoded independently. When the 88 bytes of record
    [k] are replaced by 88 other bytes, the entry at place [k] becomes the
    decoding of the new bytes and every other entry of the result stays as
    it was. *)
Theorem records_independent (pre rec1 rec2 post : list byte) (k : nat)
  (Hpre : List.length pre = record_offset k)
  (Hrec1 : List.length rec1 = 88%nat)
  (Hrec2 : List.length rec2 = 88%nat) :
  exists hs1 hs2,
    parse_hues (pre ++ rec1 ++ post) = Ok hs1
    /\ parse_hues (pre ++ rec2 ++ post) = Ok hs2
    /\ List.length hs1 = List.length hs2
    /\ nth_error hs1 k
       = Some (hue_of_unpacked (Z.of_nat k + 1) (Py.unpack_fields rec1))
    /\ nth_error hs2 k
       = Some (hue_of_unpacked (Z.of_nat k + 1) (Py.unpack_fields rec2))
    /\ forall j, j <> k -> nth_error hs1 j = nth_error hs2 j.
Proof.
  exists (decoded (pre ++ rec1 ++ post)), (decoded (pre ++ rec2 ++ post)).
  rewrite !parse_hues_decoded. rewrite !decoded_length.
  assert (Hlen : List.length (pre ++ rec1 ++ post)
                 = List.length (pre ++ rec2 ++ post))
    by (rewrite !length_app; lia).
  assert (Hnth : forall rec,
             List.length rec = 88%nat ->
             nth_error (decoded (pre ++ rec ++ post)) k
             = Some (hue_of_unpacked (Z.of_nat k + 1)
                       (Py.unpack_fields rec))).
  { intros rec Hrec. unfold decoded.
    rewrite nth_error_map, nth_error_seq.
    replace (k <? _)%nat with true.
    - cbn [option_map Nat.add]. unfold decode_record.
      now rewrite record_bytes_at.
    - symmetry. apply Nat.ltb_lt, num_entries_reaches.
      rewrite !length_app. lia. }
  split; [reflexivity|]. split; [reflexivity|].
  split; [now rewrite Hlen|].
  split; [now apply Hnth|]. split; [now apply Hnth|].
  intros j Hj. unfold decoded. rewrite Hlen.
  rewrite !nth_error_map, nth_error_seq.
  destruct (Nat.ltb_spec j (num_entries (List.length (pre ++ rec2 ++ post))));
    [|reflexivity].
  cbn [option_map Nat.add]. f_equal. unfold decode_record. f_equal. f_equal.
  apply record_bytes_agree. intros i Hi.
  apply nth_error_around; [lia|].
  destruct (record_offsets_apart j k Hj); lia.
Qed.

Lemma records_independent_witness :
  exists hs1 hs2,
    parse_hues ([xde; xad; xbe; xef] ++ crafted_record ++ crafted_record)
    = Ok hs1
    /\ parse_hues ([xde; xad; xbe; xef] ++ zeros 88 ++ crafted_record)
       = Ok hs2
    /\ List.length hs1 = List.length hs2
    /\ nth_error hs1 0
       = Some (hue_of_unpacked (Z.of_nat 0 + 1)
                 (Py.unpack_fields crafted_record))
    /\ nth_error hs2 0
       = Some (hue_of_unpacked (Z.of_nat 0 + 1)
                 (Py.unpack_fields (zeros 88)))
    /\ forall j, j <> 0%nat -> nth_error hs1 j = nth_error hs2 j.
Proof.
  apply (records_independent [xde; xad; xbe; xef] crafted_record
           (zeros 88) crafted_record 0); vm_compute; reflexivity.
Defined.

(** X5. For every file the number [n] of entries returned is the largest
    number of records that fit: [n] records and the headers of their groups
    take at most the length of the file, and [n + 1] records with theirs
    would not fit. The result is empty exactly for files shorter than 92
    bytes (one header and one record). *)
Theorem entry_count_is_maximal (content : list byte) :
  exists hs,
    parse_hues content = Ok hs
    /\ (88 * List.length hs + 4 * ((List.length hs + 7) / 8)
        <= List.length content)%nat
    /\ (List.length content
        < 88 * (List.length hs + 1) + 4 * ((List.length hs + 8) / 8))%nat
    /\ (hs = [] <-> (List.length content < 92)%nat).
Proof.
  exists (decoded content). split; [apply parse_hues_decoded|].
  rewrite <- length_zero_iff_nil, decoded_length.
  pose proof (num_entries_room (List.length content)) as (Hlo & Hhi).
  split; [exact Hlo|]. split; [exact Hhi|]. lia.
Qed.

(** ** Names: length, alphabet, clean names, empty names *)

Section NameFacts.
Local Open Scope nat_scope.

Lemma lstrip_length (s : string) :
  String.length (Py.lstrip s) <= String.length s.
Proof.
  induction s as [|c s IH]; cbn [Py.lstrip]; [lia|].
  destruct (Py.isspace c); cbn [String.length] in *; lia.
Qed.

Lemma rstrip_length (s : string) :
  String.length (Py.rstrip s) <= String.length s.
Proof.
  induction s as [|c s IH]; cbn [Py.rstrip]; [lia|].
  destruct (Py.rstrip s); [destruct (Py.isspace c)|];
    cbn [String.length] in *; lia.
Qed.

Lemma split_nul_head_length (raw : list byte) :
  List.length (Py.split_nul_head raw) <= List.length raw.
Proof.
  induction raw as [|b raw IH]; cbn [Py.split_nul_head]; [lia|].
  destruct (Byte.eqb b x00); cbn [List.length]; lia.
Qed.

Lemma string_of_list_byte_length (bs : list byte) :
  String.length (string_of_list_byte bs) = List.length bs.
Proof.
  induction bs as [|b bs IH]; [reflexivity|].
  cbn [string_of_list_byte map string_of_list_ascii String.length
       List.length].
  f_equal. exact IH.
Qed.

Lemma decode_name_length (raw : list byte) :
  String.length (decode_name raw) <= List.length raw.
Proof.
  unfold decode_name, Py.strip, Py.decode_ascii_ignore.
  pose proof (rstrip_length
                (Py.lstrip (string_of_list_byte
                              (filter Py.is_ascii (Py.split_nul_head raw))))).
  pose proof (lstrip_length
                (string_of_list_byte
                   (filter Py.is_ascii (Py.split_nul_head raw)))).
  pose proof (string_of_list_byte_length
                (filter Py.is_ascii (Py.split_nul_head raw))).
  pose proof (filter_length_le Py.is_ascii (Py.split_nul_head raw)).
  pose proof (split_nul_head_length raw). lia.
Qed.

Lemma ascii_code_of_byte (b : byte) :
  Z.of_N (N_of_ascii (ascii_of_byte b)) = Py.byte_val b.
Proof. now destruct b. Qed.

(** *** Stripping a string that has nothing to strip *)

Lemma lstrip_clean (s : string) :
  starts_with_space s = false -> Py.lstrip s = s.
Proof.
  destruct s as [|c s]; [reflexivity|].
  unfold starts_with_space; cbn [first_char Py.lstrip]. now intros ->.
Qed.

Lemma rstrip_clean (s : string) :
  ends_with_space s = false -> Py.rstrip s = s.
Proof.
  induction s as [|c s IH]; [reflexivity|].
  destruct s as [|b s].
  - unfold ends_with_space; cbn [last_char Py.rstrip]. now intros ->.
  - unfold ends_with_space in *. rewrite last_char_cons. intros H.
    cbn [Py.rstrip] in *. now rewrite (IH H).
Qed.

Lemma split_nul_head_plain (bs : list byte) :
  forallb plain bs = true ->
  filter Py.is_ascii (Py.split_nul_head bs) = bs.
Proof.
  induction bs as [|b bs IH]; [reflexivity|].
  cbn [forallb Py.split_nul_head]. unfold plain at 1.
  intros H. apply andb_true_iff in H as (Hb & Hbs).
  apply andb_true_iff in Hb as (Hnz & Hasc).
  apply negb_true_iff in Hnz. rewrite Hnz. cbn [filter].
  now rewrite Hasc, (IH Hbs).
Qed.

(** *** Strings that strip to nothing *)

Lemma all_space_app (l r : string) :
  all_space (l ++ r) = all_space l && all_space r.
Proof.
  induction l as [|c l IH]; [reflexivity|].
  cbn [append all_space]. now rewrite IH, andb_assoc.
Qed.

Lemma lstrip_all_space (s : string) :
  all_space s = true -> Py.lstrip s = EmptyString.
Proof.
  induction s as [|c s IH]; [reflexivity|].
  cbn [all_space Py.lstrip]. intros H.
  apply andb_true_iff in H as (-> & Hs). now apply IH.
Qed.

Lemma strip_empty_iff (s : string) :
  Py.strip s = EmptyString <-> all_space s = true.
Proof.
  split.
  - intros H. destruct (strip_decompose s) as (l & r & Hs & Hl & Hr).
    rewrite H in Hs. cbn [append] in Hs.
    now rewrite Hs, all_space_app, Hl, Hr.
  - intros H. unfold Py.strip. now rewrite lstrip_all_space.
Qed.

Lemma all_space_decoded (bs : list byte) :
  all_space (Py.decode_ascii_ignore bs) = forallb vanishes bs.
Proof.
  unfold Py.decode_ascii_ignore.
  induction bs as [|b bs IH]; [reflexivity|].
  cbn [filter forallb]. unfold vanishes at 1.
  destruct (Py.is_ascii b); cbn [negb orb].
  - change (string_of_list_byte (b :: filter Py.is_ascii bs))
      with (String (ascii_of_byte b)
              (string_of_list_byte (filter Py.is_ascii bs))).
    cbn [all_space]. now rewrite IH.
  - exact IH.
Qed.

End NameFacts.

(** X6. The name of every entry that [parse_hues] returns has at most 20
    characters, and each of them is an ASCII character other than NUL
    (code 1 to 127). *)
Theorem names_short_ascii (content : list byte) (hs : list HueEntry)
  (e : HueEntry)
  (Hparse : parse_hues content = Ok hs) (Hin : In e hs) :
  (String.length (name e) <= 20)%nat
  /\ Forall (fun c => 1 <= Z.of_N (N_of_ascii c) <= 127)
       (list_ascii_of_string (name e)).
Proof.
  rewrite parse_hues_decoded in Hparse. injection Hparse as <-.
  apply in_decoded in Hin as (k & _ & ->).
  cbn [decode_record hue_of_unpacked name Py.unpack_fields Py.raw20].
  split.
  - etransitivity; [apply decode_name_length|].
    rewrite length_firstn. lia.
  - apply Forall_forall. intros c Hc.
    apply decode_name_chars in Hc as (b & -> & Hasc & Hnz).
    rewrite ascii_code_of_byte. unfold Py.is_ascii in Hasc.
    apply Z.ltb_lt in Hasc. pose proof (byte_val_range b) as Hb.
    assert (Py.byte_val b <> 0); [|lia].
    intros Hz. apply Hnz. unfold Py.byte_val in Hz.
    assert (HN : Byte.to_N b = Byte.to_N x00) by (cbn; lia).
    pose proof (Byte.of_to_N b) as Hof. rewrite HN in Hof.
    cbn in Hof. congruence.
Qed.

Lemma names_short_ascii_witness :
  (String.length (name (decode_record crafted_file 0)) <= 20)%nat
  /\ Forall (fun c => 1 <= Z.of_N (N_of_ascii c) <= 127)
       (list_ascii_of_string (name (decode_record crafted_file 0))).
Proof.
  apply (names_short_ascii crafted_file [decode_record crafted_file 0]).
  - vm_compute. reflexivity.
  - left. reflexivity.
Defined.

(** X7. A clean name comes back unchanged: when a name field holds a
    string of ASCII characters other than NUL that neither starts nor ends
    with whitespace, followed by any number of zero bytes, the decoded name
    is that string. *)
Theorem clean_name_round_trip (s : string) (n : nat)
  (Hplain : forallb plain (list_byte_of_string s) = true)
  (Hstart : starts_with_space s = false)
  (Hend : ends_with_space s = false) :
  decode_name (list_byte_of_string s ++ zeros n) = s.
Proof.
  rewrite decode_name_app_zeros.
  unfold decode_name, Py.decode_ascii_ignore, Py.strip.
  rewrite split_nul_head_plain by exact Hplain.
  rewrite string_of_list_byte_of_string.
  rewrite lstrip_clean by exact Hstart. now apply rstrip_clean.
Qed.

Lemma clean_name_round_trip_witness :
  decode_name (list_byte_of_string "Ice Blue" ++ zeros 12)
  = "Ice Blue"%string.
Proof.
  apply (clean_name_round_trip "Ice Blue" 12); reflexivity.
Defined.

(** X8. A name field decodes to the empty name exactly when every byte
    before its first NUL is either whitespace or not ASCII. *)
Theorem empty_name_iff (raw : list byte) :
  decode_name raw = EmptyString
  <-> forallb vanishes (Py.split_nul_head raw) = true.
Proof.
  unfold decode_name. rewrite strip_empty_iff. now rewrite all_space_decoded.
Qed.

(** ** The text view: [format_rgb_list] *)

Section TextView.
Local Open Scope nat_scope.

Lemma append_length (a b : string) :
  String.length (a ++ b) = String.length a + String.length b.
Proof.
  induction a as [|c a IH]; [reflexivity|].
  cbn [append String.length]. now rewrite IH.
Qed.

Lemma format_d_3_length (z : Z) :
  (0 <= z <= 255)%Z -> String.length (PyStr.format_d 3 z) = 3.
Proof.
  intros Hz.
  assert (Hall : forallb
                   (fun k => String.length (PyStr.format_d 3 (Z.of_nat k))
                             =? 3)
                   (seq 0 256) = true) by (vm_compute; reflexivity).
  rewrite forallb_forall in Hall.
  specialize (Hall (Z.to_nat z)). rewrite Z2Nat.id in Hall by lia.
  apply Nat.eqb_eq, Hall, in_seq. lia.
Qed.

Lemma format_0d_2_length (z : Z) :
  (0 <= z <= 99)%Z -> String.length (PyStr.format_0d 2 z) = 2.
Proof.
  intros Hz.
  assert (Hall : forallb
                   (fun k => String.length (PyStr.format_0d 2 (Z.of_nat k))
                             =? 2)
                   (seq 0 100) = true) by (vm_compute; reflexivity).
  rewrite forallb_forall in Hall.
  specialize (Hall (Z.to_nat z)). rewrite Z2Nat.id in Hall by lia.
  apply Nat.eqb_eq, Hall, in_seq. lia.
Qed.

Lemma rgb_line_length (i : Z) (rgb : Z * Z * Z) :
  (0 <= i <= 99)%Z -> rgb_in_bytes rgb ->
  String.length (rgb_line i rgb) = 19.
Proof.
  destruct rgb as [[r g] b]. intros Hi (Hr & Hg & Hb).
  unfold rgb_line. rewrite !append_length.
  rewrite format_0d_2_length by exact Hi.
  rewrite !format_d_3_length by assumption. reflexivity.
Qed.

Lemma enumerate_from_length {A : Type} (i : Z) (l : list A) :
  List.length (PyStr.enumerate_from i l) = List.length l.
Proof.
  revert i. induction l as [|x l IH]; intros i; [reflexivity|].
  cbn [PyStr.enumerate_from List.length]. now rewrite IH.
Qed.

Lemma rgb_lines_length (l : list (Z * Z * Z)) :
  List.length (rgb_lines l) = List.length l.
Proof. unfold rgb_lines. now rewrite length_map, enumerate_from_length. Qed.

Lemma rgb_lines_nth (l : list (Z * Z * Z)) (k : nat) :
  nth_error (rgb_lines l) k
  = option_map (rgb_line (Z.of_nat k)) (nth_error l k).
Proof.
  unfold rgb_lines.
  enough (H : forall i,
             nth_error
               (map (fun p => rgb_line (fst p) (snd p))
                  (PyStr.enumerate_from i l)) k
             = option_map (rgb_line (i + Z.of_nat k)%Z) (nth_error l k))
    by (rewrite H; reflexivity).
  revert k. induction l as [|x l IH]; intros k i.
  - now destruct k.
  - destruct k as [|k]; cbn [PyStr.enumerate_from map nth_error option_map
                               fst snd].
    + do 2 f_equal. lia.
    + rewrite IH. do 2 f_equal. lia.
Qed.

Lemma rgb_lines_width (l : list (Z * Z * Z)) :
  List.length l <= 100 -> Forall rgb_in_bytes l ->
  Forall (fun s => String.length s = 19) (rgb_lines l).
Proof.
  intros Hlen Hall. apply Forall_forall. intros s Hs.
  apply In_nth_error in Hs as (k & Hk).
  rewrite rgb_lines_nth in Hk.
  destruct (nth_error l k) as [rgb|] eqn:E; [|discriminate].
  injection Hk as <-.
  assert (k < List.length l) by (apply nth_error_Some; congruence).
  apply rgb_line_length; [lia|].
  rewrite Forall_forall in Hall. apply Hall. eapply nth_error_In, E.
Qed.

(** *** Blocks of eight *)

Lemma range_step_8_cons (n : nat) :
  0 < n ->
  PyStr.range_step n 8 = 0 :: map (fun i => i + 8) (PyStr.range_step (n - 8) 8).
Proof.
  intros Hn. unfold PyStr.range_step.
  replace ((n + 8 - 1) / 8) with (S ((n - 8 + 8 - 1) / 8)) by lia.
  cbn [seq map]. f_equal. rewrite <- seq_shift, !map_map.
  apply map_ext. intros k. lia.
Qed.

Lemma chunks_of_8_cons (lines : list string) :
  lines <> [] ->
  chunks_of_8 lines = firstn 8 lines :: chunks_of_8 (skipn 8 lines).
Proof.
  intros Hne. unfold chunks_of_8.
  rewrite range_step_8_cons
    by (destruct lines; [congruence|cbn [List.length]; lia]).
  cbn [map]. rewrite skipn_0. f_equal. rewrite length_skipn, map_map.
  apply map_ext. intros i. now rewrite skipn_skipn.
Qed.

Lemma chunks_of_8_spec (n : nat) (lines : list string) :
  List.length lines <= n ->
  List.concat (chunks_of_8 lines) = lines
  /\ Forall (fun c => 1 <= List.length c <= 8) (chunks_of_8 lines)
  /\ List.length (chunks_of_8 lines) = (List.length lines + 7) / 8.
Proof.
  revert lines. induction n as [|n IH]; intros lines Hlen.
  - destruct lines; [|cbn [List.length] in Hlen; lia].
    repeat split. constructor.
  - destruct lines as [|x lines]; [repeat split; constructor|].
    rewrite chunks_of_8_cons by discriminate.
    destruct (IH (skipn 8 (x :: lines))) as (Hcat & Hall & Hnum).
    { rewrite length_skipn. cbn [List.length] in *. lia. }
    cbn [List.concat List.length]. rewrite Hcat, Hnum, firstn_skipn.
    split; [reflexivity|]. split.
    + constructor; [|exact Hall].
      rewrite length_firstn. cbn [List.length]. lia.
    + rewrite length_skipn. cbn [List.length]. lia.
Qed.

(** *** The size of the text *)

Lemma join_length_uniform (sep : string) (w : nat) (ls : list string) :
  Forall (fun s => String.length s = w) ls ->
  String.length (PyStr.join sep ls)
  = w * List.length ls + String.length sep * (List.length ls - 1).
Proof.
  unfold PyStr.join. induction 1 as [|s ls Hs Hls IH]; [cbn; lia|].
  destruct ls as [|t ls].
  - cbn [String.concat List.length]. lia.
  - change (String.concat sep (s :: t :: ls))
      with (s ++ sep ++ String.concat sep (t :: ls))%string.
    rewrite !append_length, IH, Hs. cbn [List.length].
    replace (S (S (List.length ls)) - 1) with (S (S (List.length ls) - 1))
      by lia.
    rewrite !Nat.mul_succ_r. lia.
Qed.

Lemma format_rgb_list_32 (l : list (Z * Z * Z)) :
  List.length l = 32 -> Forall rgb_in_bytes l ->
  String.length (format_rgb_list l) = 642.
Proof.
  intros Hlen Hall.
  pose proof (rgb_lines_width l ltac:(lia) Hall) as Hw.
  pose proof (rgb_lines_length l) as Hn. rewrite Hlen in Hn.
  unfold format_rgb_list. cbv zeta.
  set (lines := rgb_lines l) in *.
  unfold chunks_of_8. rewrite Hn.
  change (PyStr.range_step 32 8) with [0; 8; 16; 24].
  cbn [map].
  assert (Hchunk : forall i, i + 8 <= 32 ->
             String.length (PyStr.join PyStr.nl (firstn 8 (skipn i lines)))
             = 159).
  { intros i Hi. rewrite (join_length_uniform _ 19).
    - rewrite length_firstn, length_skipn, Hn.
      replace (Nat.min 8 (32 - i)) with 8 by lia. reflexivity.
    - apply Forall_firstn_of. apply Forall_forall. intros s Hs.
      rewrite Forall_forall in Hw. apply Hw.
      rewrite <- (firstn_skipn i lines). apply in_or_app. now right. }
  rewrite (join_length_uniform _ 159).
  - reflexivity.
  - repeat constructor; apply Hchunk; lia.
Qed.

Lemma decode_record_rgb (content : list byte) (k : nat) :
  List.length (colorsRGB (decode_record content k)) = 32
  /\ Forall rgb_in_bytes (colorsRGB (decode_record content k)).
Proof.
  cbn [decode_record hue_of_unpacked colorsRGB Py.unpack_fields Py.ints].
  split.
  - rewrite length_map, length_firstn, unpack_H_length. reflexivity.
  - apply Forall_map, Forall_forall. intros w _.
    apply color16_to_rgb888_in_bytes.
Qed.

End TextView.

(** X10. The blocks that [format_rgb_list] cuts its lines into hold all
    the lines, in order and once each; every block has between one and
    eight lines, and there are [ceil (n / 8)] blocks for [n] lines. *)
Theorem chunks_of_8_partition (lines : list string) :
  List.concat (chunks_of_8 lines) = lines
  /\ Forall (fun c => (1 <= List.length c <= 8)%nat) (chunks_of_8 lines)
  /\ List.length (chunks_of_8 lines) = ((List.length lines + 7) / 8)%nat.
Proof. apply (chunks_of_8_spec (List.length lines)). lia. Qed.

(** ** The CSV view and the loading of a file *)

Section CsvView.
Local Open Scope nat_scope.

Lemma flat_map3_length {A B : Type} (f1 f2 f3 : A -> B) (l : list A) :
  List.length (flat_map (fun x => [f1 x; f2 x; f3 x]) l) = 3 * List.length l.
Proof.
  induction l as [|x l IH]; [reflexivity|].
  cbn [flat_map app List.length]. rewrite IH. lia.
Qed.

Lemma flat_map3_nth {A B : Type} (f1 f2 f3 : A -> B) (l : list A) (i : nat) :
  nth_error (flat_map (fun x => [f1 x; f2 x; f3 x]) l) (3 * i)
  = option_map f1 (nth_error l i)
  /\ nth_error (flat_map (fun x => [f1 x; f2 x; f3 x]) l) (3 * i + 1)
     = option_map f2 (nth_error l i)
  /\ nth_error (flat_map (fun x => [f1 x; f2 x; f3 x]) l) (3 * i + 2)
     = option_map f3 (nth_error l i).
Proof.
  revert i. induction l as [|x l IH]; intros i.
  - cbn [flat_map]. rewrite !nth_error_nil. now destruct i.
  - destruct i as [|i].
    + repeat split.
    + replace (3 * S i) with (S (S (S (3 * i)))) by lia.
      cbn [flat_map app Nat.add nth_error]. apply IH.
Qed.

Lemma csv_row_cells (h : HueEntry) :
  csv_row h
  = [CInt (index h); CStr (name h); CInt (start h); CInt (end_ h)]
    ++ flat_map (fun rgb => [CInt (fst (fst rgb)); CInt (snd (fst rgb));
                             CInt (snd rgb)])
         (colorsRGB h).
Proof.
  unfold csv_row. f_equal. apply flat_map_ext. now intros [[r g] b].
Qed.

Lemma csv_row_length (h : HueEntry) :
  List.length (csv_row h) = 4 + 3 * List.length (colorsRGB h).
Proof.
  rewrite csv_row_cells, length_app, flat_map3_length. reflexivity.
Qed.

Lemma csv_header_length : List.length csv_header = 100.
Proof. reflexivity. Qed.

Lemma nth_error_past4 {A : Type} (a b c d : A) (l : list A) (j : nat) :
  nth_error (a :: b :: c :: d :: l) (4 + j) = nth_error l j.
Proof. reflexivity. Qed.

Lemma range32_nth (i : nat) :
  i < 32 -> nth_error (map Z.of_nat (seq 0 32)) i = Some (Z.of_nat i).
Proof.
  intros Hi. rewrite nth_error_map, nth_error_seq.
  apply Nat.ltb_lt in Hi. now rewrite Hi.
Qed.

Lemma decoded_empty_iff (content : list byte) :
  decoded content = [] <-> List.length content < 92.
Proof.
  rewrite <- length_zero_iff_nil, decoded_length.
  pose proof (num_entries_room (List.length content)). lia.
Qed.

End CsvView.

(** X12. [open_file] replaces the loaded table exactly when the chosen
    file has at least 92 bytes: then the new table is the non-empty result
    of [parse_hues], the status line reports its size and no message box is
    shown. A shorter file leaves the state as it was and shows the error
    "No hues found or file unreadable."; the decoder itself never makes
    [open_file] report an exception of its own. *)
Theorem open_file_loads_iff (self : HuesApp) (path : string)
  (content : list byte) (Hpath : path <> EmptyString) :
  ((List.length content < 92)%nat ->
   open_file self path content
   = Some (self,
           Some (ShowError "Error" "Failed to read hues.mul:"
                   (ValueError "No hues found or file unreadable."))))
  /\ ((92 <= List.length content)%nat ->
      exists hs,
        parse_hues content = Ok hs
        /\ hs <> []
        /\ open_file self path content
           = Some ({| self_hues := hs;
                      status := ("Loaded "
                                 ++ PyStr.str_int
                                      (Z.of_nat (List.length hs))
                                 ++ " hues from: " ++ path)%string |},
                   None)).
Proof.
  pose proof (decoded_empty_iff content) as Hempty.
  unfold open_file. rewrite parse_hues_decoded.
  destruct path as [|c path]; [congruence|].
  split.
  - intros Hlen. apply Hempty in Hlen. now rewrite Hlen.
  - intros Hlen. exists (decoded content).
    destruct (decoded content) as [|e hs] eqn:E.
    + assert (List.length content < 92)%nat by now apply Hempty.
      lia.
    + repeat split. discriminate.
Qed.

Lemma open_file_loads_iff_witness :
  exists hs,
    parse_hues crafted_file = Ok hs
    /\ hs <> []
    /\ open_file HuesApp_init "hues.mul" crafted_file
       = Some ({| self_hues := hs;
                  status := ("Loaded "
                             ++ PyStr.str_int (Z.of_nat (List.length hs))
                             ++ " hues from: " ++ "hues.mul")%string |},
               None).
Proof.
  assert (Hpath : "hues.mul"%string <> EmptyString) by discriminate.
  destruct (open_file_loads_iff HuesApp_init "hues.mul" crafted_file Hpath)
    as (_ & H).
  apply H. vm_compute. lia.
Defined.

Section Rereading.

Lemma decode_name_plain (raw : list byte) :
  forallb plain (list_byte_of_string (decode_name raw)) = true.
Proof.
  apply forallb_forall. intros b Hb.
  unfold list_byte_of_string in Hb.
  apply in_map_iff in Hb as (c & <- & Hc).
  apply decode_name_chars in Hc as (b & -> & Hasc & Hnz).
  rewrite byte_of_ascii_of_byte. unfold plain.
  rewrite Hasc, andb_true_r. apply negb_true_iff.
  destruct (Byte.eqb b x00) eqn:E; [|reflexivity].
  apply Byte.byte_dec_bl in E. contradiction.
Qed.

Lemma decode_name_stripped (raw : list byte) :
  starts_with_space (decode_name raw) = false
  /\ ends_with_space (decode_name raw) = false.
Proof.
  unfold decode_name, Py.strip. split.
  - apply rstrip_starts, lstrip_starts.
  - apply rstrip_ends.
Qed.

Lemma decode_name_of_clean (s : string) :
  forallb plain (list_byte_of_string s) = true ->
  starts_with_space s = false ->
  ends_with_space s = false ->
  decode_name (list_byte_of_string s) = s.
Proof.
  intros Hplain Hstart Hend.
  unfold decode_name, Py.decode_ascii_ignore, Py.strip.
  rewrite split_nul_head_plain by exact Hplain.
  rewrite string_of_list_byte_of_string.
  rewrite lstrip_clean by exact Hstart. now apply rstrip_clean.
Qed.

End Rereading.

(** X13. Decoding a name is idempotent: a decoded name written back as
    bytes, with any zero padding behind it, decodes to itself. *)
Theorem decode_name_idempotent (raw : list byte) (n : nat) :
  decode_name (list_byte_of_string (decode_name raw) ++ zeros n)
  = decode_name raw.
Proof.
  rewrite decode_name_app_zeros.
  destruct (decode_name_stripped raw) as (Hstart & Hend).
  apply decode_name_of_clean; [apply decode_name_plain|assumption..].
Qed.

(** ** Names: what is stripped and what is kept *)

Section NamePadding.










End NamePadding.



(** ** The text view, read back line by line *)

Section TextLines.
Local Open Scope nat_scope.

Lemma no_nl_app (a b : string) : no_nl (a ++ b) = no_nl a && no_nl b.
Proof.
  induction a as [|c a IH]; [reflexivity|].
  cbn [append no_nl]. now rewrite IH, andb_assoc.
Qed.

Lemma no_nl_fill (n : nat) (c : ascii) :
  Ascii.eqb c "010" = false -> no_nl (PyStr.fill n c) = true.
Proof.
  intros Hc. induction n as [|n IH]; [reflexivity|].
  cbn [PyStr.fill no_nl]. now rewrite Hc, IH.
Qed.

Lemma no_nl_uint (d : Decimal.uint) :
  no_nl (NilEmpty.string_of_uint d) = true.
Proof. induction d; cbn [NilEmpty.string_of_uint no_nl]; auto. Qed.

Lemma no_nl_str_int (z : Z) : no_nl (PyStr.str_int z) = true.
Proof.
  unfold PyStr.str_int, NilZero.string_of_int, NilZero.string_of_uint.
  destruct (Z.to_int z) as [d|d]; destruct d; try reflexivity;
    cbn [no_nl]; try apply (no_nl_uint (Decimal.D0 d));
    rewrite ?andb_true_l; apply no_nl_uint.
Qed.

Lemma no_nl_format_d (w : nat) (z : Z) : no_nl (PyStr.format_d w z) = true.
Proof.
  unfold PyStr.format_d. cbv zeta.
  now rewrite no_nl_app, no_nl_fill, no_nl_str_int.
Qed.

Lemma no_nl_format_0d (w : nat) (z : Z) : no_nl (PyStr.format_0d w z) = true.
Proof.
  unfold PyStr.format_0d. cbv zeta.
  destruct (z <? 0)%Z; rewrite !no_nl_app, no_nl_fill, no_nl_str_int;
    reflexivity.
Qed.

Lemma no_nl_rgb_line (i : Z) (rgb : Z * Z * Z) : no_nl (rgb_line i rgb) = true.
Proof.
  destruct rgb as [[r g] b]. unfold rgb_line.
  rewrite !no_nl_app, no_nl_format_0d, !no_nl_format_d. reflexivity.
Qed.

Lemma no_nl_rgb_lines (l : list (Z * Z * Z)) :
  Forall (fun s => no_nl s = true) (rgb_lines l).
Proof.
  unfold rgb_lines. apply Forall_map, Forall_forall.
  intros p _. apply no_nl_rgb_line.
Qed.

(** *** Splitting a joined text *)

Lemma split_nl_whole (a : string) : no_nl a = true -> split_nl a = [a].
Proof.
  induction a as [|c a IH]; [reflexivity|].
  cbn [no_nl split_nl]. intros H. apply andb_true_iff in H as (Hc & Ha).
  apply negb_true_iff in Hc. now rewrite Hc, (IH Ha).
Qed.

Lemma split_nl_app (a b : string) :
  no_nl a = true ->
  split_nl (a ++ String "010" b) = a :: split_nl b.
Proof.
  induction a as [|c a IH]; [reflexivity|].
  cbn [no_nl append split_nl]. intros H.
  apply andb_true_iff in H as (Hc & Ha).
  apply negb_true_iff in Hc. now rewrite Hc, (IH Ha).
Qed.

Lemma append_assoc (a b c : string) :
  ((a ++ b) ++ c = a ++ (b ++ c))%string.
Proof.
  induction a as [|x a IH]; [reflexivity|].
  cbn [append]. now rewrite IH.
Qed.

Lemma split_nl_join_then (c : list string) (t : string) :
  c <> [] -> Forall (fun s => no_nl s = true) c ->
  split_nl (PyStr.join PyStr.nl c ++ String "010" t) = c ++ split_nl t.
Proof.
  intros Hne Hall. unfold PyStr.join, PyStr.nl.
  induction Hall as [|x c Hx Hc IH]; [congruence|].
  destruct c as [|y c].
  - cbn [String.concat app]. now apply split_nl_app.
  - change (String.concat (String "010" "") (x :: y :: c))
      with (x ++ String "010" "" ++ String.concat (String "010" "") (y :: c))
             %string.
    rewrite append_assoc. cbn [append].
    rewrite split_nl_app by exact Hx.
    cbn [app]. f_equal. apply IH. discriminate.
Qed.

Lemma split_nl_join (c : list string) :
  c <> [] -> Forall (fun s => no_nl s = true) c ->
  split_nl (PyStr.join PyStr.nl c) = c.
Proof.
  intros Hne Hall. unfold PyStr.join, PyStr.nl.
  induction Hall as [|x c Hx Hc IH]; [congruence|].
  destruct c as [|y c].
  - cbn [String.concat]. now apply split_nl_whole.
  - change (String.concat (String "010" "") (x :: y :: c))
      with (x ++ String "010" (String.concat (String "010" "") (y :: c)))
             %string.
    rewrite split_nl_app by exact Hx. f_equal. apply IH. discriminate.
Qed.

Lemma split_nl_blocks (chunks : list (list string)) :
  chunks <> [] ->
  Forall (fun c => c <> [] /\ Forall (fun s => no_nl s = true) c) chunks ->
  split_nl (PyStr.join (PyStr.nl ++ PyStr.nl)
              (map (fun row => PyStr.join PyStr.nl row) chunks))
  = blank_separated chunks.
Proof.
  intros Hne Hall.
  induction Hall as [|c chunks (Hc & Hlines) Hrest IH]; [congruence|].
  destruct chunks as [|d chunks].
  - cbn [map blank_separated]. unfold PyStr.join at 1.
    cbn [String.concat]. now apply split_nl_join.
  - change (PyStr.join (PyStr.nl ++ PyStr.nl)
              (map (fun row => PyStr.join PyStr.nl row) (c :: d :: chunks)))
      with (PyStr.join PyStr.nl c
            ++ String "010"
                 (String "010"
                    (PyStr.join (PyStr.nl ++ PyStr.nl)
                       (map (fun row => PyStr.join PyStr.nl row)
                          (d :: chunks)))))%string.
    rewrite split_nl_join_then by assumption.
    cbn [split_nl blank_separated app]. rewrite Ascii.eqb_refl.
    do 2 f_equal. apply IH. discriminate.
Qed.

Lemma chunks_of_8_lines (lines : list string) :
  Forall (fun s => no_nl s = true) lines ->
  Forall (fun c => c <> [] /\ Forall (fun s => no_nl s = true) c)
    (chunks_of_8 lines).
Proof.
  intros Hall.
  destruct (chunks_of_8_spec (List.length lines) lines (le_n _))
    as (_ & Hsize & _).
  apply Forall_forall. intros c Hc.
  rewrite Forall_forall in Hsize. pose proof (Hsize c Hc) as Hlen.
  split; [intros ->; cbn [List.length] in Hlen; lia|].
  unfold chunks_of_8 in Hc. apply in_map_iff in Hc as (i & <- & _).
  apply Forall_firstn_of. apply Forall_forall. intros s Hs.
  rewrite Forall_forall in Hall. apply Hall.
  rewrite <- (firstn_skipn i lines). apply in_or_app. now right.
Qed.

Lemma split_nl_format_rgb_list (l : list (Z * Z * Z)) :
  l <> [] ->
  split_nl (format_rgb_list l) = blank_separated (chunks_of_8 (rgb_lines l)).
Proof.
  intros Hne. unfold format_rgb_list. cbv zeta.
  apply split_nl_blocks.
  - intros H. apply (f_equal (@List.length _)) in H.
    destruct (chunks_of_8_spec (List.length (rgb_lines l)) (rgb_lines l)
                (le_n _)) as (_ & _ & Hnum).
    rewrite Hnum, rgb_lines_length in H.
    destruct l; [congruence|]. cbn [List.length] in H. lia.
  - apply chunks_of_8_lines, no_nl_rgb_lines.
Qed.

Lemma rgb_lines_by_slot (l : list (Z * Z * Z)) :
  rgb_lines l
  = map (fun i => rgb_line (Z.of_nat i) (nth i l (0, 0, 0)%Z))
      (seq 0 (List.length l)).
Proof.
  apply nth_error_ext. intros k.
  rewrite rgb_lines_nth, nth_error_map, nth_error_seq.
  destruct (Nat.ltb_spec k (List.length l)) as [Hk|Hk].
  - rewrite (nth_error_nth' l (0, 0, 0)%Z Hk). reflexivity.
  - apply nth_error_None in Hk. now rewrite Hk.
Qed.

End TextLines.

(** X9. The text that [format_rgb_list] returns, cut at its line feeds,
    is the list of its lines with one empty line between two blocks of
    eight. For the colours of any entry that [parse_hues] returns these are
    the 32 lines of the slots 0 to 31 in order, line [i] being
    [f"{i:02d}: ({r:3d}, {g:3d}, {b:3d})"] of slot [i], in four blocks of
    eight with an empty line after the lines 7, 15 and 23; every line has
    exactly 19 characters and the text has 642 characters. *)
Theorem format_rgb_list_of_entry (content : list byte) (hs : list HueEntry)
  (e : HueEntry)
  (Hparse : parse_hues content = Ok hs) (Hin : In e hs) :
  let line := fun i => rgb_line (Z.of_nat i) (nth i (colorsRGB e) (0, 0, 0)) in
  split_nl (format_rgb_list (colorsRGB e))
  = map line (seq 0 8) ++ [EmptyString]
    ++ map line (seq 8 8) ++ [EmptyString]
    ++ map line (seq 16 8) ++ [EmptyString]
    ++ map line (seq 24 8)
  /\ Forall (fun s => String.length s = 19%nat /\ no_nl s = true)
       (map line (seq 0 32))
  /\ String.length (format_rgb_list (colorsRGB e)) = 642%nat
  /\ (forall l, l <> [] ->
        split_nl (format_rgb_list l)
        = blank_separated (chunks_of_8 (rgb_lines l)))
  /\ rgb_line 7 (255, 0, 12) = "07: (255,   0,  12)"%string
  /\ format_rgb_list [] = EmptyString.
Proof.
  intros line.
  rewrite parse_hues_decoded in Hparse. injection Hparse as <-.
  apply in_decoded in Hin as (k & _ & ->).
  destruct (decode_record_rgb content k) as (Hlen & Hall).
  set (l := colorsRGB (decode_record content k)) in *.
  assert (Hlines : rgb_lines l = map line (seq 0 32))
    by (rewrite rgb_lines_by_slot, Hlen; reflexivity).
  split.
  { rewrite split_nl_format_rgb_list
      by (intros H; rewrite H in Hlen; discriminate Hlen).
    unfold chunks_of_8. rewrite rgb_lines_length, Hlen, Hlines.
    reflexivity. }
  split.
  { rewrite <- Hlines. apply Forall_forall. intros s Hs. split.
    - pose proof (rgb_lines_width l ltac:(lia) Hall) as Hw.
      rewrite Forall_forall in Hw. now apply Hw.
    - pose proof (no_nl_rgb_lines l) as Hn.
      rewrite Forall_forall in Hn. now apply Hn. }
  split; [now apply format_rgb_list_32|].
  split; [exact split_nl_format_rgb_list|].
  split; reflexivity.
Qed.

Lemma format_rgb_list_of_entry_witness :
  nth_error
    (split_nl (format_rgb_list (colorsRGB (decode_record crafted_file 0)))) 0
  = Some "00: (131,  65,  32)"%string
  /\ nth_error
       (split_nl (format_rgb_list (colorsRGB (decode_record crafted_file 0))))
       8
     = Some EmptyString
  /\ String.length
       (format_rgb_list (colorsRGB (decode_record crafted_file 0)))
     = 642%nat.
Proof.
  assert (Hparse : parse_hues crafted_file = Ok [decode_record crafted_file 0])
    by (vm_compute; reflexivity).
  assert (Hin : In (decode_record crafted_file 0)
                  [decode_record crafted_file 0]) by (left; reflexivity).
  pose proof (format_rgb_list_of_entry crafted_file _ _ Hparse Hin) as H.
  cbv zeta in H. destruct H as (Hsplit & _ & Hlen & _).
  rewrite Hsplit.
  split; [vm_compute; reflexivity|].
  split; [vm_compute; reflexivity|exact Hlen].
Defined.

(** X11. Exporting a non-empty table decoded from any file to a chosen
    path: when nothing fails the writer gets the header and one row per
    entry and "Saved" is shown; when opening the path fails nothing is
    written and "Export error" is shown; when a [writerow] fails the rows
    before it are written and "Export error" is shown. The header and
    every row have 100 cells; for each of the 32 colour slots [i] the
    columns [4 + 3 i], [4 + 3 i + 1] and [4 + 3 i + 2] are labelled
    [c<i>_R], [c<i>_G] and [c<i>_B] in the header and hold the red, green
    and blue channel of slot [i] in the row; the first four cells are the
    index, the name, the start and the end. *)
Theorem export_csv_rows_aligned (content : list byte) (hs : list HueEntry)
  (st path : string)
  (Hparse : parse_hues content = Ok hs)
  (Hne : hs <> [])
  (Hpath : path <> EmptyString) :
  let self := {| self_hues := hs; status := st |} in
  let rows := csv_header :: map csv_row hs in
  export_csv self path NoFault
  = Saved rows (ShowInfo "Export" ("Saved: " ++ path))
  /\ (forall e,
        export_csv self path (OpenFault e)
        = Failed [] (ShowError "Export error" "Could not save CSV:" e))
  /\ (forall k e,
        (k <= List.length hs)%nat ->
        export_csv self path (WriteFault k e)
        = Failed (firstn k rows)
            (ShowError "Export error" "Could not save CSV:" e))
  /\ Forall (fun row => List.length row = 100%nat) rows
  /\ firstn 4 csv_header
     = [CStr "index"; CStr "name"; CStr "start"; CStr "end"]
  /\ forall e i,
       In e hs -> (i < 32)%nat ->
       firstn 4 (csv_row e)
       = [CInt (index e); CStr (name e); CInt (start e); CInt (end_ e)]
       /\ nth_error csv_header (4 + 3 * i)
          = Some (CStr ("c" ++ PyStr.str_int (Z.of_nat i) ++ "_R"))
       /\ nth_error csv_header (4 + (3 * i + 1))
          = Some (CStr ("c" ++ PyStr.str_int (Z.of_nat i) ++ "_G"))
       /\ nth_error csv_header (4 + (3 * i + 2))
          = Some (CStr ("c" ++ PyStr.str_int (Z.of_nat i) ++ "_B"))
       /\ nth_error (csv_row e) (4 + 3 * i)
          = option_map (fun rgb => CInt (fst (fst rgb)))
              (nth_error (colorsRGB e) i)
       /\ nth_error (csv_row e) (4 + (3 * i + 1))
          = option_map (fun rgb => CInt (snd (fst rgb)))
              (nth_error (colorsRGB e) i)
       /\ nth_error (csv_row e) (4 + (3 * i + 2))
          = option_map (fun rgb => CInt (snd rgb))
              (nth_error (colorsRGB e) i).
Proof.
  intros self rows.
  rewrite parse_hues_decoded in Hparse. injection Hparse as <-.
  assert (Hexp : forall fault,
             export_csv self path fault
             = match fault with
               | NoFault => Saved rows (ShowInfo "Export" ("Saved: " ++ path))
               | OpenFault e =>
                   Failed []
                     (ShowError "Export error" "Could not save CSV:" e)
               | WriteFault k e =>
                   if (k <? List.length rows)%nat
                   then Failed (firstn k rows)
                          (ShowError "Export error" "Could not save CSV:" e)
                   else Saved rows (ShowInfo "Export" ("Saved: " ++ path))
               end).
  { intros fault. unfold export_csv, self, rows. cbn [self_hues].
    destruct (decoded content); [congruence|].
    destruct path; [congruence|reflexivity]. }
  split; [apply (Hexp NoFault)|].
  split; [intros e; apply (Hexp (OpenFault e))|].
  split.
  { intros k e Hk. rewrite (Hexp (WriteFault k e)).
    replace (k <? List.length rows)%nat with true; [reflexivity|].
    symmetry. apply Nat.ltb_lt. unfold rows.
    cbn [List.length]. rewrite length_map. lia. }
  split.
  { constructor; [apply csv_header_length|].
    apply Forall_map, Forall_forall. intros e He.
    apply in_decoded in He as (k & _ & ->).
    rewrite csv_row_length.
    destruct (decode_record_rgb content k) as (-> & _). reflexivity. }
  split; [reflexivity|].
  intros e i _ Hi. split; [reflexivity|].
  unfold csv_header. cbn [map app].
  rewrite csv_row_cells. cbn [app].
  rewrite !nth_error_past4.
  destruct (flat_map3_nth
              (fun i => CStr ("c" ++ PyStr.str_int i ++ "_R"))
              (fun i => CStr ("c" ++ PyStr.str_int i ++ "_G"))
              (fun i => CStr ("c" ++ PyStr.str_int i ++ "_B"))
              (List.map Z.of_nat (seq 0 32)) i) as (H1 & H2 & H3).
  rewrite range32_nth in H1, H2, H3 by exact Hi.
  destruct (flat_map3_nth
              (fun rgb : Z * Z * Z => CInt (fst (fst rgb)))
              (fun rgb => CInt (snd (fst rgb)))
              (fun rgb => CInt (snd rgb))
              (colorsRGB e) i) as (H4 & H5 & H6).
  repeat split; assumption.
Qed.

Lemma export_csv_rows_aligned_witness :
  export_csv {| self_hues := decoded crafted_file; status := "" |} "out.csv"
    NoFault
  = Saved (csv_header :: map csv_row (decoded crafted_file))
      (ShowInfo "Export" ("Saved: " ++ "out.csv"))
  /\ export_csv {| self_hues := decoded crafted_file; status := "" |}
       "out.csv" (WriteFault 1 (OSError "No space left on device"))
     = Failed
         (firstn 1 (csv_header :: map csv_row (decoded crafted_file)))
         (ShowError "Export error" "Could not save CSV:"
            (OSError "No space left on device"))
  /\ Forall (fun row => List.length row = 100%nat)
       (csv_header :: map csv_row (decoded crafted_file)).
Proof.
  assert (Hparse : parse_hues crafted_file = Ok (decoded crafted_file))
    by (vm_compute; reflexivity).
  assert (Hne : decoded crafted_file <> []) by (vm_compute; discriminate).
  assert (Hpath : "out.csv"%string <> EmptyString) by discriminate.
  pose proof (export_csv_rows_aligned crafted_file _ "" "out.csv"
                Hparse Hne Hpath) as H.
  cbv zeta in H. destruct H as (H1 & _ & H3 & H4 & _).
  split; [exact H1|]. split; [|exact H4].
  apply H3. vm_compute. lia.
Defined.


